(** * Verification of the weaverbird [Session] orchestrator

    Shallow embedding of [src/weaverbird/session/session.ts].

    The class [Session] keeps a reference to the state object of the current
    conversation phase, two retry counters, the identifiers given by the
    backend and the task and approach texts.  Its methods call collaborators
    that live outside the class: the backend client, the file utilities, the
    state objects' [interact], the virtual and the real file system.  Here

    - the fields of the class are a record, [Session];
    - the state objects live in a store of objects addressed by references,
      since [nextInteraction] writes through [this.state] to an object that
      [interact] handed over;
    - a method is a computation in a state-and-exception monad over the
      [World]: session, store, and the log of the calls made to collaborators,
      in the order they were made;
    - what a collaborator answers (a value, or an exception) is an input, the
      [Backend] record: a method is modelled for every possible answer. *)

From stdpp Require Import base gmap strings list.
From Stdlib Require Import ZArith Strings.Byte.

Local Open Scope Z_scope.

(** ** Results and errors *)

(** What a method or a collaborator can throw. *)
Inductive Err : Type :=
| ConversationIdNotFoundError
| Error (message : string)
| CollaboratorError (name : string).

Inductive Res (A : Type) : Type :=
| Ok (a : A)
| Throw (e : Err).
Arguments Ok {A} a.
Arguments Throw {A} e.

(** ** Payloads

    Types declared in [../types] and [./sessionConfig]; the session hands
    their values over without looking into them. *)

Definition LLMConfig : Type := string.
Definition BackendConfig : Type := string.
Definition Files : Type := list (string * string).
Definition Interaction : Type := list string.

(** ** State objects *)

(** The three classes imported from [./sessionState]. *)
Inductive StateClass : Type :=
| ConversationNotStartedState
| RefinementState
| CodeGenState.

#[global] Instance StateClass_eq_dec : EqDecision StateClass.
Proof. solve_decision. Defined.

Module SessionStateConfig.
(** The object built by [getSessionStateConfig]; [proxyClient] is the one
    client of the session and is left out. *)
Record t : Type := mk {
  llmConfig : LLMConfig;
  workspaceRoot : string;
  backendConfig : BackendConfig;
  conversationId : string;
  uploadId : string
}.

(** [{ ...c, conversationId: id }] *)
Definition with_conversationId (c : t) (id : string) : t :=
  mk (llmConfig c) (workspaceRoot c) (backendConfig c) id (uploadId c).
End SessionStateConfig.

Module SessionState.
(** The members of a state object that [Session] reads or writes:
    [phase], [approach], [filePaths], [tokenSource]; [tokenCancelled] is
    whether [tokenSource.cancel()] has been called. *)
Record t : Type := mk {
  cls : StateClass;
  phase : string;
  approach : string;
  filePaths : option (list string);
  tokenCancelled : bool;
  config : option SessionStateConfig.t;
  tabID : string
}.

Definition set_approach (a : string) (o : t) : t :=
  mk (cls o) (phase o) a (filePaths o) (tokenCancelled o) (config o) (tabID o).

Definition cancel (o : t) : t :=
  mk (cls o) (phase o) (approach o) (filePaths o) true (config o) (tabID o).

(** Modelled from the spec: the constructors of the three state classes,
    whose file [sessionState.ts] is not part of the sources.  The spec
    gives the refinement state the phase Approach and the code generation
    state the phase Codegen, and the not-started state a phase that is
    neither (written Init here); a new state keeps the configuration, the
    approach and the tab it is built with, has no file paths yet and a
    token source that has not been cancelled. *)
Definition new_ConversationNotStartedState (a tab : string) : t :=
  mk ConversationNotStartedState "Init" a None false None tab.

Definition new_RefinementState (c : SessionStateConfig.t) (a tab : string) : t :=
  mk RefinementState "Approach" a None false (Some c) tab.

Definition new_CodeGenState (c : SessionStateConfig.t) (a tab : string) : t :=
  mk CodeGenState "Codegen" a None false (Some c) tab.

#[global] Instance inhabited : Inhabited t :=
  populate (new_ConversationNotStartedState EmptyString EmptyString).
End SessionState.

(** References to state objects, and the store of the objects. *)
Definition Ref : Type := nat.
Abbreviation Heap := (gmap nat SessionState.t).

(** [new C(...)]: the object is put at an address not in use. *)
Definition alloc (o : SessionState.t) (h : Heap) : Ref * Heap :=
  let r := fresh (dom h) in (r, <[r := o]> h).

(** ** The session *)

Record SessionConfig : Type := mkSessionConfig {
  workspaceRoot : string;
  llmConfig : LLMConfig;
  backendConfig : BackendConfig
}.

Record Session : Type := mkSession {
  _state : option Ref;
  task : string;
  approach : string;
  _conversationId : option string;
  _uploadId : option string;
  approachRetries : Z;
  codeGenRetries : Z;
  config : SessionConfig;
  tabID : string
}.

Definition set_state (r : Ref) (s : Session) : Session :=
  mkSession (Some r) (task s) (approach s) (_conversationId s) (_uploadId s)
    (approachRetries s) (codeGenRetries s) (config s) (tabID s).

Definition set_task (t : string) (s : Session) : Session :=
  mkSession (_state s) t (approach s) (_conversationId s) (_uploadId s)
    (approachRetries s) (codeGenRetries s) (config s) (tabID s).

Definition set_approach (a : string) (s : Session) : Session :=
  mkSession (_state s) (task s) a (_conversationId s) (_uploadId s)
    (approachRetries s) (codeGenRetries s) (config s) (tabID s).

Definition set_conversationId (i : string) (s : Session) : Session :=
  mkSession (_state s) (task s) (approach s) (Some i) (_uploadId s)
    (approachRetries s) (codeGenRetries s) (config s) (tabID s).

Definition set_uploadId (i : string) (s : Session) : Session :=
  mkSession (_state s) (task s) (approach s) (_conversationId s) (Some i)
    (approachRetries s) (codeGenRetries s) (config s) (tabID s).

Definition set_approachRetries (n : Z) (s : Session) : Session :=
  mkSession (_state s) (task s) (approach s) (_conversationId s) (_uploadId s)
    n (codeGenRetries s) (config s) (tabID s).

Definition set_codeGenRetries (n : Z) (s : Session) : Session :=
  mkSession (_state s) (task s) (approach s) (_conversationId s) (_uploadId s)
    (approachRetries s) n (config s) (tabID s).

(** ** Calls to collaborators *)

Record Uri : Type := mkUri { scheme : string; path : string }.

(** The argument of [interact]; its [fs] and [messenger] members are the
    session's own and never change. *)
Record SessionStateAction : Type := mkAction {
  action_files : Files;
  action_task : string;
  action_msg : option string
}.

(** What [interact] resolves to. *)
Record SessionStateInteraction : Type := mkResp {
  nextState : option Ref;
  interaction : Interaction
}.

(** One entry of the log per call that leaves the class. *)
Inductive Event : Type :=
| CreateConversation
| GetSourceCodePath (root sub : string)
| PrepareRepoData (repoRootPath : string)
| CreateUploadUrl (conversationId : option string) (checksum : string)
| UploadCode (uploadUrl : string) (zipFileBuffer : list byte)
| CollectFiles (root : string)
| Interact (st : Ref) (a : SessionStateAction)
| Cancel (st : Ref)
| ReadFile (uri : Uri)
| Mkdir (dir : string)
| WriteFile (file content : string).

(** The answers of the collaborators during one method call.  [interact]
    runs code of the state object: it may change the store before it returns
    or throws. *)
Record Backend : Type := mkBackend {
  createConversation : Res string;
  getSourceCodePath : string -> string -> Res string;
  prepareRepoData : string -> Res (list byte * string);
  createUploadUrl : option string -> string -> Res (string * string);
  uploadCode : string -> list byte -> Res unit;
  collectFiles : string -> Res Files;
  interact : Ref -> SessionStateAction -> Heap -> Res SessionStateInteraction * Heap;
  readFile : Uri -> Res (list byte);
  mkdir : string -> Res unit;
  writeFile : string -> string -> Res unit
}.

(** Library functions and constants of modules that are not part of the
    sources: Node's [path], [TextDecoder], [../limits], [../constants]. *)
Record Platform : Type := mkPlatform {
  isAbsolute : string -> bool;
  join : string -> string -> string;
  dirname : string -> string;
  decode : list byte -> string;
  approachRetryLimit : Z;
  codeGenRetryLimit : Z;
  weaverbirdScheme : string
}.

(** ** The monad *)

Record World : Type := mkWorld {
  session : Session;
  heap : Heap;
  trace : list Event
}.

Definition M (A : Type) : Type := World -> Res A * World.

#[global] Instance M_ret : MRet M := fun A a w => (Ok a, w).

(** An exception ends the computation and keeps the world as it is then. *)
#[global] Instance M_bind : MBind M := fun A B f m w =>
  match m w with
  | (Ok a, w') => f a w'
  | (Throw e, w') => (Throw e, w')
  end.

Definition throw {A : Type} (e : Err) : M A := fun w => (Throw e, w).

Definition this : M Session := fun w => (Ok (session w), w).

Definition update (f : Session -> Session) : M unit :=
  fun w => (Ok tt, mkWorld (f (session w)) (heap w) (trace w)).

(** Reading the object behind a reference. *)
Definition deref (r : Ref) : M SessionState.t :=
  fun w => (Ok (heap w !!! r), w).

(** Changing the object behind a reference, in place. *)
Definition mutate (r : Ref) (f : SessionState.t -> SessionState.t) : M unit :=
  fun w => (Ok tt, mkWorld (session w) (<[r := f (heap w !!! r)]> (heap w)) (trace w)).

Definition new (o : SessionState.t) : M Ref :=
  fun w => let (r, h) := alloc o (heap w) in (Ok r, mkWorld (session w) h (trace w)).

Definition log (e : Event) : M unit :=
  fun w => (Ok tt, mkWorld (session w) (heap w) (trace w ++ [e])).

(** A call to a collaborator that does not touch the store: the call is
    logged, then it returns or throws. *)
Definition call {A : Type} (e : Event) (answer : Res A) : M A :=
  fun w => (answer, mkWorld (session w) (heap w) (trace w ++ [e])).

(** The call of [interact] on a state object. *)
Definition call_interact (B : Backend) (r : Ref) (a : SessionStateAction)
  : M SessionStateInteraction :=
  fun w => let (resp, h) := interact B r a (heap w) in
           (resp, mkWorld (session w) h (trace w ++ [Interact r a])).

(** JavaScript's [!x] on a [string | undefined]: true of [undefined] and of
    the empty string. *)
Definition falsy (x : option string) : bool :=
  match x with
  | None => true
  | Some s => String.eqb s EmptyString
  end.
Arguments falsy : simpl never.

(** ** The methods of [Session] *)

Section Methods.
Variable P : Platform.

(** [constructor]: a not-started state with an empty approach, the retry
    counters at their limits, no identifier, empty task and approach. *)
Definition constructor (cfg : SessionConfig) (tab : string) : World :=
  let (r, h) := alloc (SessionState.new_ConversationNotStartedState EmptyString tab) ∅ in
  mkWorld
    (mkSession (Some r) EmptyString EmptyString None None
       (approachRetryLimit P) (codeGenRetryLimit P) cfg tab)
    h [].

(** [get state()] *)
Definition state : M Ref :=
  s ← this;
  match _state s with
  | None => throw (Error "State should be initialized before it's read")
  | Some r => mret r
  end.

(** [get conversationId()] *)
Definition conversationId : M string :=
  s ← this;
  if falsy (_conversationId s) then throw ConversationIdNotFoundError
  else mret (default EmptyString (_conversationId s)).

(** [get uploadId()] *)
Definition uploadId : M string :=
  s ← this;
  if falsy (_uploadId s) then throw (Error "UploadId should be initialized before it's read")
  else mret (default EmptyString (_uploadId s)).

(** [getSessionStateConfig]: the members are evaluated in the order they
    are written, the two getters last. *)
Definition getSessionStateConfig : M SessionStateConfig.t :=
  s ← this;
  cid ← conversationId;
  uid ← uploadId;
  mret (SessionStateConfig.mk (llmConfig (config s)) (workspaceRoot (config s))
          (backendConfig (config s)) cid uid).

(** [get retries()] *)
Definition retries : M Z :=
  st ← state;
  o ← deref st;
  s ← this;
  if String.eqb (SessionState.phase o) "Approach" then mret (approachRetries s)
  else if String.eqb (SessionState.phase o) "Codegen" then mret (codeGenRetries s)
  else mret (approachRetries s).

(** [decreaseRetries]; the counters hold integers, far inside the range
    where [-= 1] on a JavaScript number is exact. *)
Definition decreaseRetries : M unit :=
  st ← state;
  o ← deref st;
  s ← this;
  if String.eqb (SessionState.phase o) "Approach"
  then update (set_approachRetries (approachRetries s - 1))
  else if String.eqb (SessionState.phase o) "Codegen"
  then update (set_codeGenRetries (codeGenRetries s - 1))
  else mret tt.

(** [initCodegen] *)
Definition initCodegen : M unit :=
  c ← getSessionStateConfig;
  cid ← conversationId;
  s ← this;
  r ← new (SessionState.new_CodeGenState
             (SessionStateConfig.with_conversationId c cid) (approach s) (tabID s));
  update (set_state r).

(** [for (const x of l) body(x)] *)
Fixpoint for_of {A : Type} (l : list A) (body : A -> M unit) : M unit :=
  match l with
  | [] => mret tt
  | x :: l' => body x;; for_of l' body
  end.

Section WithBackend.
Variable B : Backend.

(** [setupConversation] *)
Definition setupConversation : M unit :=
  cid ← call CreateConversation (createConversation B);
  update (set_conversationId cid);;
  s ← this;
  repoRootPath ← call (GetSourceCodePath (workspaceRoot (config s)) "src")
                   (getSourceCodePath B (workspaceRoot (config s)) "src");
  zip ← call (PrepareRepoData repoRootPath) (prepareRepoData B repoRootPath);
  let zipFileBuffer := zip.1 in
  let zipFileChecksum := zip.2 in
  s ← this;
  up ← call (CreateUploadUrl (_conversationId s) zipFileChecksum)
         (createUploadUrl B (_conversationId s) zipFileChecksum);
  let uploadUrl := up.1 in
  update (set_uploadId up.2);;
  call (UploadCode uploadUrl zipFileBuffer) (uploadCode B uploadUrl zipFileBuffer);;
  c ← getSessionStateConfig;
  cid' ← conversationId;
  s ← this;
  r ← new (SessionState.new_RefinementState
             (SessionStateConfig.with_conversationId c cid') EmptyString (tabID s));
  update (set_state r).

(** [nextInteraction] *)
Definition nextInteraction (msg : option string) : M Interaction :=
  s ← this;
  files ← call (CollectFiles (workspaceRoot (config s)))
            (collectFiles B (workspaceRoot (config s)));
  st ← state;
  s ← this;
  resp ← call_interact B st (mkAction files (task s) msg);
  match nextState resp with
  | Some next =>
      st ← state;
      o ← deref st;
      let newApproach := SessionState.approach o in
      st ← state;
      log (Cancel st);;
      mutate st SessionState.cancel;;
      update (set_state next);;
      st ← state;
      mutate st (SessionState.set_approach newApproach);;
      update (set_approach newApproach)
  | None => mret tt
  end;;
  mret (interaction resp).

(** [send] *)
Definition send (msg : string) : M Interaction :=
  s ← this;
  (if String.eqb (task s) EmptyString then update (set_task msg) else mret tt);;
  nextInteraction (Some msg).

(** [acceptChanges] *)
Definition acceptChanges : M unit :=
  st ← state;
  o ← deref st;
  for_of (default [] (SessionState.filePaths o)) (fun filePath =>
    s ← this;
    let absolutePath :=
      if isAbsolute P filePath then filePath
      else join P (workspaceRoot (config s)) filePath in
    let uri := mkUri (weaverbirdScheme P) filePath in
    content ← call (ReadFile uri) (readFile B uri);
    let decodedContent := decode P content in
    call (Mkdir (dirname P absolutePath)) (mkdir B (dirname P absolutePath));;
    call (WriteFile absolutePath decodedContent)
      (writeFile B absolutePath decodedContent)).
End WithBackend.

(** ** Sequences of method calls *)

(** A call of a public method, with what the collaborators answer
    during it. *)
Inductive Op : Type :=
| SetupConversation (B : Backend)
| InitCodegen
| Send (msg : string) (B : Backend)
| AcceptChanges (B : Backend)
| DecreaseRetries.

Definition discard {A : Type} (m : M A) : M unit := m ≫= λ _, mret tt.

Definition perform (op : Op) : M unit :=
  match op with
  | SetupConversation B => setupConversation B
  | InitCodegen => initCodegen
  | Send msg B => discard (send B msg)
  | AcceptChanges B => acceptChanges B
  | DecreaseRetries => decreaseRetries
  end.

(** The world after a sequence of calls; a call that throws leaves the
    session as it was at the throw, and the next call goes on from there. *)
Definition run (ops : list Op) (w : World) : World :=
  foldl (fun w op => (perform op w).2) w ops.
End Methods.


(** ** A concrete platform and concrete collaborators

    POSIX-like paths and a few backends, to run the methods on. *)

Module Sample.
Definition isAbsolute (p : string) : bool := String.prefix "/" p.

Definition join (a b : string) : string := a +:+ "/" +:+ b.

(** The part of [p] before its last slash, when it has one. *)
Fixpoint before_last_slash (p : string) : option string :=
  match p with
  | EmptyString => None
  | String c p' =>
      match before_last_slash p' with
      | Some d => Some (String c d)
      | None => if Ascii.eqb c (Ascii.ascii_of_nat 47) then Some EmptyString else None
      end
  end.

Definition dirname (p : string) : string :=
  match before_last_slash p with
  | Some EmptyString => "/"
  | Some d => d
  | None => "."
  end.

Definition platform : Platform :=
  mkPlatform isAbsolute join dirname String.string_of_list_byte 3 3 "weaverbird".

Definition config : SessionConfig := mkSessionConfig "/ws" "llm" "backend".

(** A backend that answers every call; [interact] answers with [resp] and
    leaves the store alone. *)
Definition backend (cid uid : string) (resp : SessionStateInteraction) : Backend :=
  mkBackend
    (Ok cid)
    (fun root sub => Ok (join root sub))
    (fun _ => Ok ([x50; x4b], "checksum"))
    (fun _ _ => Ok ("https://upload", uid))
    (fun _ _ => Ok tt)
    (fun _ => Ok [("a.ts", "let a")])
    (fun _ _ h => (Ok resp, h))
    (fun _ => Ok [x68; x69])
    (fun _ => Ok tt)
    (fun _ _ => Ok tt).

Definition quiet : SessionStateInteraction := mkResp None ["ok"].

(** The backend with the identifiers c1 and u1 and an [interact] that
    returns no successor. *)
Definition backend_ok : Backend := backend "c1" "u1" quiet.

(** A backend whose identifiers are empty strings. *)
Definition backend_empty_ids : Backend := backend EmptyString EmptyString quiet.

(** As [backend_ok], except that the upload of the archive fails. *)
Definition backend_upload_fails : Backend :=
  mkBackend
    (Ok "c1")
    (fun root sub => Ok (join root sub))
    (fun _ => Ok ([x50; x4b], "checksum"))
    (fun _ _ => Ok ("https://upload", "u1"))
    (fun _ _ => Throw (CollaboratorError "uploadCode"))
    (fun _ => Ok [])
    (fun _ _ h => (Ok quiet, h))
    (fun _ => Ok [])
    (fun _ => Ok tt)
    (fun _ _ => Ok tt).

(** A state object that has produced two files, and an [interact] that puts
    it in the store at address 7 and returns it as the successor, after
    rewriting the approach of the state it runs on. *)
Definition generated : SessionState.t :=
  SessionState.mk CodeGenState "Codegen" EmptyString (Some ["src/a.ts"; "/tmp/b.ts"])
    false None "tab".

Definition backend_moving : Backend :=
  mkBackend
    (Ok "c1")
    (fun root sub => Ok (join root sub))
    (fun _ => Ok ([x50; x4b], "checksum"))
    (fun _ _ => Ok ("https://upload", "u1"))
    (fun _ _ => Ok tt)
    (fun _ => Ok [])
    (fun r _ h =>
       (Ok (mkResp (Some 7%nat) ["plan"]),
        <[7%nat := generated]>
          (<[r := SessionState.set_approach "edited plan" (h !!! r)]> h)))
    (fun _ => Ok [x68; x69])
    (fun _ => Ok tt)
    (fun _ _ => Ok tt).

Definition fresh_world : World := constructor platform config "tab".

(** The session after a conversation has been set up: the current state is
    the refinement state at address 1. *)
Definition refining : World := run platform [SetupConversation backend_ok] fresh_world.

(** The session after the refinement state has handed over to [generated]. *)
Definition generating : World := run platform [Send "do it" backend_moving] refining.
End Sample.


(** ** Vocabulary of the properties *)

(** [m] keeps [I]: whatever [m] returns or throws, a world where [I] holds
    is left as a world where [I] holds. *)
Definition keeps (I : World -> Prop) {A : Type} (m : M A) : Prop :=
  forall w, I w -> I (m w).2.

(** The messages handed to [send] along a sequence of calls, in order. *)
Definition messages (ops : list Op) : list string :=
  flat_map (fun op => match op with Send msg _ => [msg] | _ => [] end) ops.

(** The first message that is not the empty string; the empty string when
    there is none. *)
Fixpoint first_nonempty (l : list string) : string :=
  match l with
  | [] => EmptyString
  | m :: l' => if String.eqb m EmptyString then first_nonempty l' else m
  end.


(** The first statement of [send], on the fields of the session. *)
Definition assign_task (msg : string) (s : Session) : Session :=
  if String.eqb (task s) EmptyString then set_task msg s else s.

(** The steps of a change of state, each as a change of the world:
    cancelling the request of the state [r], making [next] the current state,
    writing an approach into the current state, and into the session. *)
Definition cancel_request (r : Ref) (w : World) : World :=
  mkWorld (session w) (<[r := SessionState.cancel (heap w !!! r)]> (heap w))
    (trace w ++ [Cancel r]).

Definition install (next : Ref) (w : World) : World :=
  mkWorld (set_state next (session w)) (heap w) (trace w).

Definition write_state_approach (a : string) (w : World) : World :=
  match _state (session w) with
  | Some c =>
      mkWorld (session w) (<[c := SessionState.set_approach a (heap w !!! c)]> (heap w))
        (trace w)
  | None => w
  end.

Definition write_session_approach (a : string) (w : World) : World :=
  mkWorld (set_approach a (session w)) (heap w) (trace w).


(** Where [acceptChanges] writes the file of the path [filePath]: the path
    itself when it is absolute, else the path joined to the workspace root. *)
Definition absolutePath (P : Platform) (root filePath : string) : string :=
  if isAbsolute P filePath then filePath else join P root filePath.

(** The calls for one path whose virtual file holds [content]: the virtual
    file is read, the directory of the target is made, the target is
    written with the decoded content. *)
Definition accept_one (P : Platform) (root : string) (content : list byte)
    (filePath : string) : list Event :=
  [ReadFile (mkUri (weaverbirdScheme P) filePath);
   Mkdir (dirname P (absolutePath P root filePath));
   WriteFile (absolutePath P root filePath) (decode P content)].


(** The class of the current state. *)
Definition current_class (w : World) : option StateClass :=
  match _state (session w) with
  | Some r => Some (SessionState.cls (heap w !!! r))
  | None => None
  end.











(** ** The runtime configuration of the streaming client

    Shallow embedding of [getRuntimeConfig] of
    [src.gen/@amzn/codewhisperer-streaming/src/runtimeConfig.shared.ts].  The
    types of the members and the default values are imported there from
    packages that are not part of the sources: they are parameters here.  A
    member that is [undefined] or [null] is [None]; so is the configuration
    itself, which the code reads through [?.]. *)

Module RuntimeConfig.
Section Resolve.
Variables Decoder Encoder Logger RegionInfoProvider UrlParser : Type.

(** [CodeWhispererStreamingClientConfig], the members [getRuntimeConfig]
    reads. *)
Record ClientConfig : Type := mkClientConfig {
  base64Decoder : option Decoder;
  base64Encoder : option Encoder;
  disableHostPrefix : option bool;
  logger : option Logger;
  regionInfoProvider : option RegionInfoProvider;
  serviceId : option string;
  urlParser : option UrlParser;
  utf8Decoder : option Decoder;
  utf8Encoder : option Encoder
}.

(** The imported defaults; [noOpLogger] stands for [new NoOpLogger()]. *)
Record Defaults : Type := mkDefaults {
  fromBase64 : Decoder;
  toBase64 : Encoder;
  noOpLogger : Logger;
  defaultRegionInfoProvider : RegionInfoProvider;
  parseUrl : UrlParser;
  fromUtf8 : Decoder;
  toUtf8 : Encoder
}.

(** The object [getRuntimeConfig] returns. *)
Record Resolved : Type := mkResolved {
  apiVersion : string;
  r_base64Decoder : Decoder;
  r_base64Encoder : Encoder;
  r_disableHostPrefix : bool;
  r_logger : Logger;
  r_regionInfoProvider : RegionInfoProvider;
  r_serviceId : string;
  r_urlParser : UrlParser;
  r_utf8Decoder : Decoder;
  r_utf8Encoder : Encoder
}.

(** [config?.member]: nothing when there is no configuration. *)
Definition member {A : Type} (config : option ClientConfig)
    (get : ClientConfig -> option A) : option A :=
  match config with
  | Some c => get c
  | None => None
  end.

(** [x ?? d]: [d] only when [x] is [undefined] or [null]. *)
Definition coalesce {A : Type} (x : option A) (d : A) : A :=
  match x with
  | Some a => a
  | None => d
  end.

Variable D : Defaults.

Definition getRuntimeConfig (config : option ClientConfig) : Resolved :=
  mkResolved
    "2023-11-27"
    (coalesce (member config base64Decoder) (fromBase64 D))
    (coalesce (member config base64Encoder) (toBase64 D))
    (coalesce (member config disableHostPrefix) false)
    (coalesce (member config logger) (noOpLogger D))
    (coalesce (member config regionInfoProvider) (defaultRegionInfoProvider D))
    (coalesce (member config serviceId) "CodeWhispererStreaming")
    (coalesce (member config urlParser) (parseUrl D))
    (coalesce (member config utf8Decoder) (fromUtf8 D))
    (coalesce (member config utf8Encoder) (toUtf8 D)).

(** The configuration with no member set, and the one that sets every
    member to what a resolved object holds. *)
Definition no_member : ClientConfig :=
  mkClientConfig None None None None None None None None None.

Definition as_config (r : Resolved) : ClientConfig :=
  mkClientConfig (Some (r_base64Decoder r)) (Some (r_base64Encoder r))
    (Some (r_disableHostPrefix r)) (Some (r_logger r)) (Some (r_regionInfoProvider r))
    (Some (r_serviceId r)) (Some (r_urlParser r)) (Some (r_utf8Decoder r))
    (Some (r_utf8Encoder r)).

End Resolve.
End RuntimeConfig.

(** ** Collaborators that fail, and one that returns the state itself *)

Module Faulty.

(** [collectFiles] throws. *)
Definition backend_no_files : Backend :=
  mkBackend
    (Ok "c1")
    (fun root sub => Ok (Sample.join root sub))
    (fun _ => Ok ([x50; x4b], "checksum"))
    (fun _ _ => Ok ("https://upload", "u1"))
    (fun _ _ => Ok tt)
    (fun _ => Throw (CollaboratorError "collectFiles"))
    (fun _ _ h => (Ok Sample.quiet, h))
    (fun _ => Ok [x68; x69])
    (fun _ => Ok tt)
    (fun _ _ => Ok tt).

(** [interact] rewrites the approach of the state it runs on and returns
    that same state as the successor. *)
Definition backend_self : Backend :=
  mkBackend
    (Ok "c1")
    (fun root sub => Ok (Sample.join root sub))
    (fun _ => Ok ([x50; x4b], "checksum"))
    (fun _ _ => Ok ("https://upload", "u1"))
    (fun _ _ => Ok tt)
    (fun _ => Ok [])
    (fun r _ h =>
       (Ok (mkResp (Some r) ["again"]),
        <[r := SessionState.set_approach "second plan" (h !!! r)]> h))
    (fun _ => Ok [x68; x69])
    (fun _ => Ok tt)
    (fun _ _ => Ok tt).

(** [interact] rewrites the approach of the state it runs on and returns
    no successor. *)
Definition backend_editing : Backend :=
  mkBackend
    (Ok "c1")
    (fun root sub => Ok (Sample.join root sub))
    (fun _ => Ok ([x50; x4b], "checksum"))
    (fun _ _ => Ok ("https://upload", "u1"))
    (fun _ _ => Ok tt)
    (fun _ => Ok [])
    (fun r _ h =>
       (Ok (mkResp None ["noted"]),
        <[r := SessionState.set_approach "edited plan" (h !!! r)]> h))
    (fun _ => Ok [x68; x69])
    (fun _ => Ok tt)
    (fun _ _ => Ok tt).

(** The virtual file of the second generated path cannot be read. *)
Definition backend_unreadable : Backend :=
  mkBackend
    (Ok "c1")
    (fun root sub => Ok (Sample.join root sub))
    (fun _ => Ok ([x50; x4b], "checksum"))
    (fun _ _ => Ok ("https://upload", "u1"))
    (fun _ _ => Ok tt)
    (fun _ => Ok [])
    (fun _ _ h => (Ok Sample.quiet, h))
    (fun u => if String.eqb (path u) "/tmp/b.ts"
              then Throw (CollaboratorError "readFile") else Ok [x68; x69])
    (fun _ => Ok tt)
    (fun _ _ => Ok tt).
End Faulty.

(** ** Vocabulary of the further properties *)

(** The calls to the file systems. *)
Definition fs_event (e : Event) : bool :=
  match e with
  | ReadFile _ | Mkdir _ | WriteFile _ _ => true
  | _ => false
  end.

(** A sequence of calls without [setupConversation]. *)
Definition no_setup (ops : list Op) : bool :=
  forallb (fun op => match op with SetupConversation _ => false | _ => true end) ops.


(** ** Properties *)

Section Properties.
Variable P : Platform.

Ltac unfold_m :=
  unfold state, conversationId, uploadId, getSessionStateConfig, deref, mutate, new,
    log, call, call_interact, update, this, throw, discard,
    mbind, M_bind, mret, M_ret in *.

(** *** The getters *)

Lemma state_defined (w : World) (r : Ref) :
  _state (session w) = Some r -> state w = (Ok r, w).
Proof. intros H. unfold_m. cbn. rewrite H. reflexivity. Qed.

Lemma falsy_spec (x : option string) :
  falsy x = true <-> x = None \/ x = Some EmptyString.
Proof.
  destruct x as [s|]; unfold falsy.
  - rewrite String.eqb_eq. split.
    + intros ->. now right.
    + intros [H|H]; congruence.
  - split; [now left | reflexivity].
Qed.

(** The two methods on the retry counters, on the current state [r]. *)
Lemma decreaseRetries_eq (w : World) (r : Ref) :
  _state (session w) = Some r ->
  let ph := SessionState.phase (heap w !!! r) in
  let s := session w in
  decreaseRetries w =
  (Ok tt,
   if String.eqb ph "Approach"
   then mkWorld (set_approachRetries (approachRetries s - 1) s) (heap w) (trace w)
   else if String.eqb ph "Codegen"
   then mkWorld (set_codeGenRetries (codeGenRetries s - 1) s) (heap w) (trace w)
   else w).
Proof.
  intros H. cbn zeta. unfold decreaseRetries. unfold_m. cbn. rewrite H. cbn.
  repeat case_match; reflexivity.
Qed.

Lemma retries_eq (w : World) (r : Ref) :
  _state (session w) = Some r ->
  let ph := SessionState.phase (heap w !!! r) in
  let s := session w in
  retries w =
  (Ok (if String.eqb ph "Approach" then approachRetries s
       else if String.eqb ph "Codegen" then codeGenRetries s
       else approachRetries s), w).
Proof.
  intros H. cbn zeta. unfold retries. unfold_m. cbn. rewrite H. cbn.
  repeat case_match; reflexivity.
Qed.

(** C4.  With [r] the current state, [decreaseRetries] returns, and takes one
    off [approachRetries] alone when the phase of [r] is Approach, one off
    [codeGenRetries] alone when it is Codegen, and changes neither counter in
    any other phase; the other fields, the store and the log stay as they
    are. *)
Theorem decreaseRetries_by_phase (w : World) (r : Ref) :
  _state (session w) = Some r ->
  let ph := SessionState.phase (heap w !!! r) in
  let s := session w in
  let w' := (decreaseRetries w).2 in
  (decreaseRetries w).1 = Ok tt /\
  (ph = "Approach" ->
     w' = mkWorld (set_approachRetries (approachRetries s - 1) s) (heap w) (trace w) /\
     approachRetries (session w') = approachRetries s - 1 /\
     codeGenRetries (session w') = codeGenRetries s) /\
  (ph = "Codegen" ->
     w' = mkWorld (set_codeGenRetries (codeGenRetries s - 1) s) (heap w) (trace w) /\
     codeGenRetries (session w') = codeGenRetries s - 1 /\
     approachRetries (session w') = approachRetries s) /\
  (ph <> "Approach" -> ph <> "Codegen" -> w' = w).
Proof.
  intros H. cbn zeta. rewrite (decreaseRetries_eq w r H). cbn.
  destruct (String.eqb_spec (SessionState.phase (heap w !!! r)) "Approach") as [Ea|Ea].
  - rewrite Ea. cbn. repeat split; first [congruence | discriminate].
  - destruct (String.eqb_spec (SessionState.phase (heap w !!! r)) "Codegen") as [Ec|Ec].
    + rewrite Ec. cbn. repeat split; first [congruence | discriminate].
    + repeat split; congruence.
Qed.

(** C10.  With [r] the current state, the getter [retries] returns for every
    phase and changes nothing: it gives [approachRetries] when the phase of
    [r] is Approach, [codeGenRetries] when it is Codegen, and [approachRetries]
    again in any other phase, where [decreaseRetries] leaves the world, and so
    both counters and what the getter gives, as they are. *)
Theorem retries_by_phase (w : World) (r : Ref) :
  _state (session w) = Some r ->
  let ph := SessionState.phase (heap w !!! r) in
  let s := session w in
  (exists n, retries w = (Ok n, w)) /\
  (ph = "Approach" -> retries w = (Ok (approachRetries s), w)) /\
  (ph = "Codegen" -> retries w = (Ok (codeGenRetries s), w)) /\
  (ph <> "Approach" -> ph <> "Codegen" ->
     retries w = (Ok (approachRetries s), w) /\
     (decreaseRetries w).2 = w /\
     retries (decreaseRetries w).2 = (Ok (approachRetries s), w)).
Proof.
  intros H. cbn zeta. rewrite (retries_eq w r H). cbn.
  split; [eexists; reflexivity|].
  split; [intros E; rewrite E; reflexivity|].
  split; [intros E; rewrite E; reflexivity|].
  intros Ea Ec. rewrite (decreaseRetries_eq w r H). cbn.
  apply String.eqb_neq in Ea, Ec. rewrite Ea, Ec. cbn.
  rewrite (retries_eq w r H). cbn. rewrite Ea, Ec. auto.
Qed.

(** The two getters of identifiers. *)
Lemma conversationId_eq (w : World) :
  conversationId w =
  if falsy (_conversationId (session w)) then (Throw ConversationIdNotFoundError, w)
  else (Ok (default EmptyString (_conversationId (session w))), w).
Proof. unfold conversationId. unfold_m. cbn. now destruct (falsy _). Qed.

Lemma uploadId_eq (w : World) :
  uploadId w =
  if falsy (_uploadId (session w))
  then (Throw (Error "UploadId should be initialized before it's read"), w)
  else (Ok (default EmptyString (_uploadId (session w))), w).
Proof. unfold uploadId. unfold_m. cbn. now destruct (falsy _). Qed.

(** C7 as the code has it.  Reading [conversationId] throws
    [ConversationIdNotFoundError] exactly when no identifier is stored or the
    stored one is the empty string, and otherwise returns the stored
    identifier; reading [uploadId] throws its error in the same two cases and
    otherwise returns the stored identifier.  Neither changes the world. *)
Theorem identifier_getters (w : World) :
  (conversationId w = (Throw ConversationIdNotFoundError, w) <->
     _conversationId (session w) = None \/ _conversationId (session w) = Some EmptyString) /\
  (forall i, _conversationId (session w) = Some i -> i <> EmptyString ->
     conversationId w = (Ok i, w)) /\
  (uploadId w = (Throw (Error "UploadId should be initialized before it's read"), w) <->
     _uploadId (session w) = None \/ _uploadId (session w) = Some EmptyString) /\
  (forall i, _uploadId (session w) = Some i -> i <> EmptyString ->
     uploadId w = (Ok i, w)).
Proof.
  rewrite conversationId_eq, uploadId_eq.
  repeat split.
  - intros H. apply falsy_spec. destruct (falsy _); [reflexivity | discriminate].
  - intros H. apply falsy_spec in H. now rewrite H.
  - intros i E N. rewrite E. unfold falsy. apply String.eqb_neq in N. now rewrite N.
  - intros H. apply falsy_spec. destruct (falsy _); [reflexivity | discriminate].
  - intros H. apply falsy_spec in H. now rewrite H.
  - intros i E N. rewrite E. unfold falsy. apply String.eqb_neq in N. now rewrite N.
Qed.

(** *** Invariants of the session along the methods *)

Lemma keeps_ret (I : World -> Prop) {A : Type} (a : A) : keeps I (mret a).
Proof. intros w H. exact H. Qed.

Lemma keeps_throw (I : World -> Prop) {A : Type} (e : Err) : keeps I (@throw A e).
Proof. intros w H. exact H. Qed.

Lemma keeps_bind (I : World -> Prop) {A B : Type} (m : M A) (k : A -> M B) :
  keeps I m -> (forall a, keeps I (k a)) -> keeps I (m ≫= k).
Proof.
  intros Hm Hk w H. unfold mbind, M_bind. specialize (Hm w H).
  destruct (m w) as [[a|e] w1]; cbn in *; [apply Hk | ]; assumption.
Qed.

(** The methods are built from a few primitive steps; an invariant that
    each kind of step keeps is kept by every method made of such steps.  The
    hypotheses a lemma below depends on are the ones for the steps its method
    takes. *)
Section Invariant.
Variable I : World -> Prop.

Hypothesis I_log : forall e w, I w -> I (mkWorld (session w) (heap w) (trace w ++ [e])).
Hypothesis I_store : forall h w, I w -> I (mkWorld (session w) h (trace w)).
Hypothesis I_state :
  forall r w, I w -> I (mkWorld (set_state r (session w)) (heap w) (trace w)).
Hypothesis I_task :
  forall t w, I w -> I (mkWorld (set_task t (session w)) (heap w) (trace w)).
Hypothesis I_approach :
  forall a w, I w -> I (mkWorld (set_approach a (session w)) (heap w) (trace w)).
Hypothesis I_conversationId :
  forall i w, I w -> I (mkWorld (set_conversationId i (session w)) (heap w) (trace w)).
Hypothesis I_uploadId :
  forall i w, I w -> I (mkWorld (set_uploadId i (session w)) (heap w) (trace w)).
Hypothesis I_approachRetries :
  forall n w, I w -> I (mkWorld (set_approachRetries n (session w)) (heap w) (trace w)).
Hypothesis I_codeGenRetries :
  forall n w, I w -> I (mkWorld (set_codeGenRetries n (session w)) (heap w) (trace w)).

Lemma keeps_this : keeps I this.
Proof. intros w H. exact H. Qed.

Lemma keeps_deref (r : Ref) : keeps I (deref r).
Proof. intros w H. exact H. Qed.

Lemma keeps_mutate (r : Ref) (f : SessionState.t -> SessionState.t) : keeps I (mutate r f).
Proof. intros w H. apply I_store, H. Qed.

Lemma keeps_new (o : SessionState.t) : keeps I (new o).
Proof. intros w H. apply I_store, H. Qed.

Lemma keeps_log (e : Event) : keeps I (log e).
Proof. intros w H. apply I_log, H. Qed.

Lemma keeps_call {A : Type} (e : Event) (answer : Res A) : keeps I (call e answer).
Proof. intros w H. apply I_log, H. Qed.

Lemma keeps_call_interact (B : Backend) (r : Ref) (a : SessionStateAction) :
  keeps I (call_interact B r a).
Proof.
  intros w H. unfold call_interact. destruct (interact B r a (heap w)) as [res h].
  cbn. apply (I_log _ (mkWorld (session w) h (trace w))), I_store, H.
Qed.

Lemma keeps_update (f : Session -> Session) :
  (forall w, I w -> I (mkWorld (f (session w)) (heap w) (trace w))) -> keeps I (update f).
Proof. intros Hf w H. apply Hf, H. Qed.

Lemma keeps_for_of {A : Type} (l : list A) (body : A -> M unit) :
  (forall x, keeps I (body x)) -> keeps I (for_of l body).
Proof.
  intros Hb. induction l as [|x l IH]; cbn.
  - apply keeps_ret.
  - apply keeps_bind; [apply Hb | intros _; exact IH].
Qed.

Ltac keep :=
  repeat first
    [ apply keeps_bind; [ | intros ? ]
    | apply keeps_ret | apply keeps_throw | apply keeps_this | apply keeps_deref
    | apply keeps_mutate | apply keeps_new | apply keeps_log | apply keeps_call
    | apply keeps_call_interact
    | apply keeps_update; auto
    | apply keeps_for_of; intros ?
    | match goal with |- keeps _ (match ?x with _ => _ end) => destruct x end ].

Lemma keeps_state : keeps I state.
Proof. unfold state. keep. Qed.

Lemma keeps_conversationId : keeps I conversationId.
Proof. unfold conversationId. keep. Qed.

Lemma keeps_uploadId : keeps I uploadId.
Proof. unfold uploadId. keep. Qed.

Lemma keeps_getSessionStateConfig : keeps I getSessionStateConfig.
Proof.
  unfold getSessionStateConfig.
  apply keeps_bind; [apply keeps_this | intros s].
  apply keeps_bind; [apply keeps_conversationId | intros cid].
  apply keeps_bind; [apply keeps_uploadId | intros uid]. apply keeps_ret.
Qed.

Lemma keeps_setupConversation (B : Backend) : keeps I (setupConversation B).
Proof.
  unfold setupConversation.
  repeat first
    [ apply keeps_getSessionStateConfig | apply keeps_conversationId
    | apply keeps_bind; [ | intros ? ] | progress keep ].
Qed.

Lemma keeps_initCodegen : keeps I initCodegen.
Proof.
  unfold initCodegen.
  repeat first
    [ apply keeps_getSessionStateConfig | apply keeps_conversationId
    | apply keeps_bind; [ | intros ? ] | progress keep ].
Qed.

Lemma keeps_nextInteraction (B : Backend) (msg : option string) :
  keeps I (nextInteraction B msg).
Proof.
  unfold nextInteraction.
  repeat first
    [ apply keeps_state | apply keeps_bind; [ | intros ? ] | progress keep ].
Qed.

Lemma keeps_send (B : Backend) (msg : string) : keeps I (send B msg).
Proof.
  unfold send.
  repeat first
    [ apply keeps_nextInteraction | apply keeps_bind; [ | intros ? ] | progress keep ].
Qed.

Lemma keeps_acceptChanges (B : Backend) : keeps I (acceptChanges P B).
Proof.
  unfold acceptChanges.
  repeat first
    [ apply keeps_state | apply keeps_bind; [ | intros ? ] | progress keep ].
Qed.

Lemma keeps_decreaseRetries : keeps I decreaseRetries.
Proof.
  unfold decreaseRetries.
  repeat first
    [ apply keeps_state | apply keeps_bind; [ | intros ? ] | progress keep ].
Qed.

Lemma keeps_perform (op : Op) : keeps I (perform P op).
Proof.
  destruct op; cbn.
  - apply keeps_setupConversation.
  - apply keeps_initCodegen.
  - apply keeps_bind; [apply keeps_send | intros ?; apply keeps_ret].
  - apply keeps_acceptChanges.
  - apply keeps_decreaseRetries.
Qed.

Lemma keeps_run (ops : list Op) (w : World) : I w -> I (run P ops w).
Proof.
  revert w. induction ops as [|op ops IH]; intros w H; cbn; [exact H|].
  apply IH, keeps_perform, H.
Qed.
End Invariant.

(** C9.  In every world a new session can get to, by any sequence of calls
    of its methods and whatever the collaborators answer, the getter [state]
    returns a reference and does not throw. *)
Theorem state_getter_never_throws (cfg : SessionConfig) (tab : string) (ops : list Op) :
  let w := run P ops (constructor P cfg tab) in
  exists r, state w = (Ok r, w).
Proof.
  cbn zeta.
  assert (H : is_Some (_state (session (run P ops (constructor P cfg tab))))).
  { apply (keeps_run (fun w => is_Some (_state (session w)))); cbn; eauto. }
  destruct H as [r H]. exists r. apply state_defined, H.
Qed.

(** *** The task *)

Lemma send_task (B : Backend) (msg : string) (w : World) :
  task (session (send B msg w).2) =
  if String.eqb (task (session w)) EmptyString then msg else task (session w).
Proof.
  unfold send. unfold mbind at 1 2. unfold M_bind, this.
  destruct (String.eqb_spec (task (session w)) EmptyString) as [E|E].
  - apply (keeps_nextInteraction (fun w0 => task (session w0) = msg)); cbn; auto.
  - apply (keeps_nextInteraction (fun w0 => task (session w0) = task (session w))); cbn; auto.
Qed.

Lemma perform_task (op : Op) (w : World) :
  task (session (perform P op w).2) =
  match op with
  | Send msg _ =>
      if String.eqb (task (session w)) EmptyString then msg else task (session w)
  | _ => task (session w)
  end.
Proof.
  destruct op as [B| |msg B|B|]; cbn [perform].
  - apply (keeps_setupConversation (fun w0 => task (session w0) = task (session w))); cbn; auto.
  - apply (keeps_initCodegen (fun w0 => task (session w0) = task (session w))); cbn; auto.
  - rewrite <- (send_task B msg w). unfold discard, mbind, M_bind.
    now destruct (send B msg w) as [[a|e] w1].
  - apply (keeps_acceptChanges (fun w0 => task (session w0) = task (session w))); cbn; auto.
  - apply (keeps_decreaseRetries (fun w0 => task (session w0) = task (session w))); cbn; auto.
Qed.

Lemma run_task (ops : list Op) (w : World) :
  task (session (run P ops w)) =
  if String.eqb (task (session w)) EmptyString then first_nonempty (messages ops)
  else task (session w).
Proof.
  revert w. induction ops as [|op ops IH]; intros w; cbn [run foldl].
  - cbn. destruct (String.eqb_spec (task (session w)) EmptyString); congruence.
  - change (foldl _ ?w0 ops) with (run P ops w0). rewrite IH, perform_task.
    destruct op as [B| |msg B|B|]; cbn [messages flat_map app]; try reflexivity.
    cbn [first_nonempty].
    destruct (String.eqb_spec (task (session w)) EmptyString) as [E|E].
    + destruct (String.eqb_spec msg EmptyString); reflexivity.
    + apply String.eqb_neq in E. now rewrite E.
Qed.

(** C8.  [send] stores its message as the task only when the task is the
    empty string; so after any sequence of calls on a new session the task
    is the first message given to [send] that is not the empty string (and
    still empty when there is none): it is the first message when that one is
    not empty, and an empty first message leaves the place to a later one. *)
Theorem task_is_first_nonempty_message (cfg : SessionConfig) (tab : string) (ops : list Op) :
  let w := run P ops (constructor P cfg tab) in
  (forall B msg w0,
     task (session (send B msg w0).2) =
     if String.eqb (task (session w0)) EmptyString then msg else task (session w0)) /\
  task (session w) = first_nonempty (messages ops) /\
  (forall m rest, messages ops = m :: rest -> m <> EmptyString -> task (session w) = m) /\
  (forall m rest, messages ops = EmptyString :: m :: rest -> m <> EmptyString ->
     task (session w) = m).
Proof.
  cbn zeta.
  assert (T : task (session (run P ops (constructor P cfg tab))) = first_nonempty (messages ops)).
  { rewrite run_task. reflexivity. }
  split; [intros; apply send_task|]. split; [exact T|].
  split; intros m rest E N; rewrite T, E; cbn; apply String.eqb_neq in N; now rewrite N.
Qed.
(** *** [send] and the change of state *)

(** C1.  Let [send] run on the current state [r], with [collectFiles]
    answering and [interact] returning a response with the successor [next],
    and let [w1] be the world when [interact] has returned.  Then [send]
    returns the interaction of the response, and the world it leaves is [w1]
    after these steps, in this order: the approach of [r] is read, the
    request of [r] is cancelled, [next] is made the current state, and the
    approach read is written into the current state, now [next], and into the
    session.  So at the end the current state is [next], its approach and the
    session's are the approach [r] had when [interact] returned, the token of
    [r] is cancelled, and the cancellation is the one call logged after
    [interact]. *)
Theorem send_installs_successor (B : Backend) (msg : string) (w : World)
    (r next : Ref) (files : Files) (resp : SessionStateInteraction) (h1 : Heap) :
  _state (session w) = Some r ->
  let s1 := assign_task msg (session w) in
  let root := workspaceRoot (config (session w)) in
  let a := mkAction files (task s1) (Some msg) in
  collectFiles B root = Ok files ->
  interact B r a (heap w) = (Ok resp, h1) ->
  nextState resp = Some next ->
  let w1 := mkWorld s1 h1 (trace w ++ [CollectFiles root; Interact r a]) in
  let newApproach := SessionState.approach (heap w1 !!! r) in
  let w' := (send B msg w).2 in
  (send B msg w).1 = Ok (interaction resp) /\
  w' = write_session_approach newApproach
         (write_state_approach newApproach (install next (cancel_request r w1))) /\
  _state (session w') = Some next /\
  SessionState.approach (heap w' !!! next) = newApproach /\
  approach (session w') = newApproach /\
  SessionState.tokenCancelled (heap w' !!! r) = true /\
  trace w' = trace w ++ [CollectFiles root; Interact r a; Cancel r].
Proof.
  intros Hr s1 root a Hf Hi Hn w1 newApproach.
  assert (E : send B msg w =
    (Ok (interaction resp),
     write_session_approach newApproach
       (write_state_approach newApproach (install next (cancel_request r w1))))).
  { subst w1 newApproach a s1 root. unfold send, nextInteraction, assign_task in *.
    unfold_m.
    destruct (String.eqb (task (session w)) EmptyString); cbn in *;
      rewrite Hr, Hf; cbn; rewrite Hi; cbn; rewrite Hn; cbn;
      repeat (rewrite Hr; cbn);
      unfold write_session_approach, write_state_approach, install, cancel_request;
      cbn; rewrite <- ?app_assoc; reflexivity. }
  rewrite E. cbn.
  repeat split.
  - now rewrite lookup_total_insert_eq.
  - destruct (decide (next = r)) as [->|N].
    + now rewrite !lookup_total_insert_eq.
    + rewrite lookup_total_insert_ne by exact N. now rewrite lookup_total_insert_eq.
  - now rewrite <- app_assoc.
Qed.

(** C6.  Let [send] run on the current state [r], with [collectFiles]
    answering and [interact] returning a response without a successor.  Then
    [send] returns the interaction of the response; the current state is
    still [r], the approach of the session and both retry counters are what
    they were, the store is the one [interact] left, and the calls logged are
    [collectFiles] and [interact] alone: the session cancels no token. *)
Theorem send_without_successor (B : Backend) (msg : string) (w : World)
    (r : Ref) (files : Files) (resp : SessionStateInteraction) (h1 : Heap) :
  _state (session w) = Some r ->
  let s1 := assign_task msg (session w) in
  let root := workspaceRoot (config (session w)) in
  let a := mkAction files (task s1) (Some msg) in
  collectFiles B root = Ok files ->
  interact B r a (heap w) = (Ok resp, h1) ->
  nextState resp = None ->
  let w' := (send B msg w).2 in
  (send B msg w).1 = Ok (interaction resp) /\
  _state (session w') = Some r /\
  approach (session w') = approach (session w) /\
  approachRetries (session w') = approachRetries (session w) /\
  codeGenRetries (session w') = codeGenRetries (session w) /\
  heap w' = h1 /\
  trace w' = trace w ++ [CollectFiles root; Interact r a] /\
  (forall st, Cancel st ∉ [CollectFiles root; Interact r a]).
Proof.
  intros Hr s1 root a Hf Hi Hn.
  assert (E : send B msg w =
    (Ok (interaction resp),
     mkWorld s1 h1 (trace w ++ [CollectFiles root; Interact r a]))).
  { subst a s1 root. unfold send, nextInteraction, assign_task in *. unfold_m.
    destruct (String.eqb (task (session w)) EmptyString); cbn in *;
      rewrite Hr, Hf; cbn; rewrite Hi; cbn; rewrite Hn; cbn;
      rewrite <- ?app_assoc; reflexivity. }
  rewrite E. cbn. subst s1. unfold assign_task.
  repeat split; try (destruct (String.eqb _ _); cbn; congruence).
  intros st H. apply elem_of_cons in H as [H|H]; [discriminate|].
  apply elem_of_cons in H as [H|H]; [discriminate|]. inversion H.
Qed.
(** *** [setupConversation] *)

(** The world [setupConversation] leaves when it completes. *)
Lemma setupConversation_ok (B : Backend) (w : World)
    (cid repoRootPath : string) (zipFileBuffer : list byte)
    (zipFileChecksum uploadUrl uid : string) :
  let root := workspaceRoot (config (session w)) in
  createConversation B = Ok cid ->
  getSourceCodePath B root "src" = Ok repoRootPath ->
  prepareRepoData B repoRootPath = Ok (zipFileBuffer, zipFileChecksum) ->
  createUploadUrl B (Some cid) zipFileChecksum = Ok (uploadUrl, uid) ->
  uploadCode B uploadUrl zipFileBuffer = Ok tt ->
  cid <> EmptyString -> uid <> EmptyString ->
  let r := fresh (dom (heap w)) in
  setupConversation B w =
  (Ok tt,
   mkWorld
     (set_state r (set_uploadId uid (set_conversationId cid (session w))))
     (<[r := SessionState.new_RefinementState
               (SessionStateConfig.mk (llmConfig (config (session w))) root
                  (backendConfig (config (session w))) cid uid)
               EmptyString (tabID (session w))]> (heap w))
     (trace w ++
      [CreateConversation; GetSourceCodePath root "src"; PrepareRepoData repoRootPath;
       CreateUploadUrl (Some cid) zipFileChecksum; UploadCode uploadUrl zipFileBuffer])).
Proof.
  intros root E1 E2 E3 E4 E5 Ncid Nuid r. subst root r.
  apply String.eqb_neq in Ncid, Nuid.
  unfold setupConversation. unfold_m. unfold alloc. cbn.
  rewrite E1. cbn. rewrite E2. cbn. rewrite E3. cbn. rewrite E4. cbn. rewrite E5. cbn.
  unfold_m. unfold falsy. cbn. rewrite Ncid. cbn. rewrite Nuid. cbn. rewrite Ncid. cbn.
  rewrite <- ?app_assoc. reflexivity.
Qed.

(** [setupConversation] completes only if every collaborator answered and
    both identifiers are non-empty strings. *)
Lemma setupConversation_inv (B : Backend) (w : World) :
  (setupConversation B w).1 = Ok tt ->
  exists cid repoRootPath zipFileBuffer zipFileChecksum uploadUrl uid,
    createConversation B = Ok cid /\
    getSourceCodePath B (workspaceRoot (config (session w))) "src" = Ok repoRootPath /\
    prepareRepoData B repoRootPath = Ok (zipFileBuffer, zipFileChecksum) /\
    createUploadUrl B (Some cid) zipFileChecksum = Ok (uploadUrl, uid) /\
    uploadCode B uploadUrl zipFileBuffer = Ok tt /\
    cid <> EmptyString /\ uid <> EmptyString.
Proof.
  unfold setupConversation. unfold_m. unfold alloc. cbn. intros H.
  destruct (createConversation B) as [cid|e] eqn:E1; cbn in H; [|discriminate].
  destruct (getSourceCodePath B _ _) as [repoRootPath|e] eqn:E2; cbn in H; [|discriminate].
  destruct (prepareRepoData B repoRootPath) as [[buf chk]|e] eqn:E3; cbn in H; [|discriminate].
  destruct (createUploadUrl B (Some cid) chk) as [[url uid]|e] eqn:E4; cbn in H; [|discriminate].
  destruct (uploadCode B url buf) as [[]|e] eqn:E5; cbn in H; [|discriminate].
  unfold_m. unfold falsy in H. cbn in H.
  destruct (String.eqb_spec cid EmptyString) as [Ecid|Ecid]; cbn in H; [discriminate|].
  destruct (String.eqb_spec uid EmptyString) as [Euid|Euid]; cbn in H; [discriminate|].
  exists cid, repoRootPath, buf, chk, url, uid. auto 10.
Qed.

(** C2.  When [setupConversation] completes, the collaborators have been
    called in this order and no other call was made: [createConversation],
    [getSourceCodePath], [prepareRepoData], [createUploadUrl] with the
    identifier [createConversation] returned and the checksum of the archive,
    [uploadCode] with the upload address and the archive.  The getters
    [conversationId] and [uploadId] then return the identifiers the backend
    gave, and the current state is a new object of class [RefinementState]
    that carries that conversation identifier, with an empty approach. *)
Theorem setupConversation_protocol (B : Backend) (w : World) :
  (setupConversation B w).1 = Ok tt ->
  let root := workspaceRoot (config (session w)) in
  let w' := (setupConversation B w).2 in
  exists cid repoRootPath zipFileBuffer zipFileChecksum uploadUrl uid r,
    createConversation B = Ok cid /\
    getSourceCodePath B root "src" = Ok repoRootPath /\
    prepareRepoData B repoRootPath = Ok (zipFileBuffer, zipFileChecksum) /\
    createUploadUrl B (Some cid) zipFileChecksum = Ok (uploadUrl, uid) /\
    uploadCode B uploadUrl zipFileBuffer = Ok tt /\
    trace w' = trace w ++
      [CreateConversation; GetSourceCodePath root "src"; PrepareRepoData repoRootPath;
       CreateUploadUrl (Some cid) zipFileChecksum; UploadCode uploadUrl zipFileBuffer] /\
    conversationId w' = (Ok cid, w') /\
    uploadId w' = (Ok uid, w') /\
    _state (session w') = Some r /\
    (r ∉ dom (heap w)) /\
    heap w' =
      <[r := SessionState.new_RefinementState
               (SessionStateConfig.mk (llmConfig (config (session w))) root
                  (backendConfig (config (session w))) cid uid)
               EmptyString (tabID (session w))]> (heap w) /\
    SessionState.cls (heap w' !!! r) = RefinementState /\
    (SessionStateConfig.conversationId <$> SessionState.config (heap w' !!! r)) = Some cid.
Proof.
  intros H root.
  destruct (setupConversation_inv B w H)
    as (cid & repoRootPath & buf & chk & url & uid & E1 & E2 & E3 & E4 & E5 & Ncid & Nuid).
  rewrite (setupConversation_ok B w cid repoRootPath buf chk url uid E1 E2 E3 E4 E5 Ncid Nuid).
  cbn zeta. cbn [snd].
  exists cid, repoRootPath, buf, chk, url, uid, (fresh (dom (heap w))).
  rewrite conversationId_eq, uploadId_eq. cbn [session heap trace].
  rewrite lookup_total_insert_eq. unfold falsy. cbn.
  apply String.eqb_neq in Ncid, Nuid. rewrite Ncid, Nuid.
  repeat split; try assumption; try reflexivity.
  apply is_fresh.
Qed.
(** *** [acceptChanges] *)

Lemma for_of_app {A : Type} (body : A -> M unit) (step : A -> list Event) (l : list A) :
  forall w,
  (forall x w0, x ∈ l -> session w0 = session w -> heap w0 = heap w ->
     body x w0 = (Ok tt, mkWorld (session w0) (heap w0) (trace w0 ++ step x))) ->
  for_of l body w = (Ok tt, mkWorld (session w) (heap w) (trace w ++ flat_map step l)).
Proof.
  induction l as [|x l IH]; intros w Hb; cbn.
  - rewrite app_nil_r. now destruct w.
  - unfold mbind, M_bind. rewrite (Hb x w) by (constructor || reflexivity).
    rewrite IH.
    + cbn. now rewrite <- app_assoc.
    + intros y w0 Hy Hs Hh. apply Hb; [now constructor | exact Hs | exact Hh].
Qed.

(** C3.  Let [r] be the current state and [paths] its [filePaths], the empty
    list when it has none, and let the virtual file of each path be readable,
    with content [content p], and the making of directories and the writing
    of files succeed.  Then [acceptChanges] returns after these calls and no
    other, path by path in the order of the list: it reads the virtual file of
    the path under the weaverbird scheme, makes the directory of the target,
    and writes the decoded content to the target, which is the path itself
    when absolute and the path joined to the workspace root otherwise.  A
    file is written exactly for the paths of the list; with no [filePaths]
    nothing is called at all. *)
Theorem acceptChanges_writes_generated_files (B : Backend) (w : World) (r : Ref)
    (content : string -> list byte) :
  _state (session w) = Some r ->
  let root := workspaceRoot (config (session w)) in
  let paths := default [] (SessionState.filePaths (heap w !!! r)) in
  (forall p, p ∈ paths ->
     readFile B (mkUri (weaverbirdScheme P) p) = Ok (content p) /\
     mkdir B (dirname P (absolutePath P root p)) = Ok tt /\
     writeFile B (absolutePath P root p) (decode P (content p)) = Ok tt) ->
  let calls := flat_map (fun p => accept_one P root (content p) p) paths in
  acceptChanges P B w = (Ok tt, mkWorld (session w) (heap w) (trace w ++ calls)) /\
  (forall file text,
     WriteFile file text ∈ calls <->
     exists p, p ∈ paths /\ file = absolutePath P root p /\ text = decode P (content p)) /\
  (forall p, isAbsolute P p = true -> absolutePath P root p = p) /\
  (forall p, isAbsolute P p = false -> absolutePath P root p = join P root p) /\
  (SessionState.filePaths (heap w !!! r) = None -> acceptChanges P B w = (Ok tt, w)).
Proof.
  intros Hr root paths Hok calls.
  assert (E : acceptChanges P B w =
                (Ok tt, mkWorld (session w) (heap w) (trace w ++ calls))).
  { unfold acceptChanges. unfold mbind at 1 2. unfold M_bind.
    rewrite (state_defined w r Hr). unfold deref at 1.
    apply for_of_app. intros p w0 Hp Hs Hh.
    destruct (Hok p Hp) as (Er & Em & Ew).
    unfold_m. unfold accept_one, absolutePath in *. subst root. rewrite Hs. cbn.
    rewrite Er. cbn. rewrite Em. cbn. rewrite Ew. cbn.
    rewrite <- ?app_assoc. reflexivity. }
  split; [exact E|]. split; [|split; [|split]].
  - intros file text. subst calls. rewrite list_elem_of_In, in_flat_map. split.
    + intros (p & Hp & Hin). exists p. apply list_elem_of_In in Hp. split; [exact Hp|].
      unfold accept_one in Hin. cbn in Hin.
      destruct Hin as [H|[H|[H|[]]]]; try discriminate. now inversion H.
    + intros (p & Hp & -> & ->). exists p. split; [now apply list_elem_of_In|].
      unfold accept_one. cbn. auto.
  - intros p H. unfold absolutePath. now rewrite H.
  - intros p H. unfold absolutePath. now rewrite H.
  - intros N. rewrite E. subst calls paths. rewrite N. cbn.
    rewrite app_nil_r. now destruct w.
Qed.
(** *** The order of the states *)


Lemma initCodegen_ok (w : World) :
  falsy (_conversationId (session w)) = false ->
  falsy (_uploadId (session w)) = false ->
  let r := fresh (dom (heap w)) in
  let s := session w in
  initCodegen w =
  (Ok tt,
   mkWorld (set_state r s)
     (<[r := SessionState.new_CodeGenState
               (SessionStateConfig.mk (llmConfig (config s)) (workspaceRoot (config s))
                  (backendConfig (config s))
                  (default EmptyString (_conversationId s))
                  (default EmptyString (_uploadId s)))
               (approach s) (tabID s)]> (heap w))
     (trace w)).
Proof.
  intros Hc Hu. cbn zeta. unfold initCodegen. unfold_m. unfold alloc. cbn.
  unfold_m. cbn. rewrite Hc. cbn. rewrite Hu. cbn. rewrite Hc. cbn. reflexivity.
Qed.

Lemma setupConversation_throws (B : Backend) (w : World) (e : Err) :
  (setupConversation B w).1 = Throw e ->
  heap (setupConversation B w).2 = heap w /\
  _state (session (setupConversation B w).2) = _state (session w).
Proof.
  unfold setupConversation. unfold_m. unfold alloc. cbn.
  destruct (createConversation B) as [cid|e1]; cbn; [|auto].
  destruct (getSourceCodePath B _ _) as [repoRootPath|e2]; cbn; [|auto].
  destruct (prepareRepoData B repoRootPath) as [[buf chk]|e3]; cbn; [|auto].
  destruct (createUploadUrl B (Some cid) chk) as [[url uid]|e4]; cbn; [|auto].
  destruct (uploadCode B url buf) as [[]|e5]; cbn; [|auto].
  unfold_m. unfold falsy. cbn.
  destruct (String.eqb cid EmptyString) eqn:Ecid; cbn; [auto|].
  destruct (String.eqb uid EmptyString) eqn:Euid; cbn; [auto|].
  rewrite ?Ecid. cbn. discriminate.
Qed.

(** [send] is the assignment of the task, then [nextInteraction]. *)
Lemma send_eq (B : Backend) (msg : string) (w : World) :
  send B msg w =
  nextInteraction B (Some msg) (mkWorld (assign_task msg (session w)) (heap w) (trace w)).
Proof.
  unfold send, assign_task. unfold mbind at 1 2. unfold M_bind, this, update.
  destruct (String.eqb (task (session w)) EmptyString); cbn; [reflexivity|].
  now destruct w.
Qed.

(** [nextInteraction] on the current state [r], by what the collaborators
    answer. *)
Lemma nextInteraction_cases (B : Backend) (msg : option string) (w : World) (r : Ref) :
  _state (session w) = Some r ->
  let root := workspaceRoot (config (session w)) in
  nextInteraction B msg w =
  match collectFiles B root with
  | Throw e => (Throw e, mkWorld (session w) (heap w) (trace w ++ [CollectFiles root]))
  | Ok files =>
      let a := mkAction files (task (session w)) msg in
      let w1 := mkWorld (session w) (interact B r a (heap w)).2
                  (trace w ++ [CollectFiles root; Interact r a]) in
      match (interact B r a (heap w)).1 with
      | Throw e => (Throw e, w1)
      | Ok resp =>
          match nextState resp with
          | None => (Ok (interaction resp), w1)
          | Some next =>
              let newApproach := SessionState.approach (heap w1 !!! r) in
              (Ok (interaction resp),
               write_session_approach newApproach
                 (write_state_approach newApproach (install next (cancel_request r w1))))
          end
      end
  end.
Proof.
  intros Hr. cbn zeta. unfold nextInteraction. unfold_m. cbn.
  destruct (collectFiles B _) as [files|e]; cbn; [|reflexivity].
  rewrite Hr. cbn.
  destruct (interact B r _ (heap w)) as [[resp|e] h1]; cbn;
    [|rewrite <- ?app_assoc; reflexivity].
  destruct (nextState resp) as [next|]; cbn;
    [|rewrite <- ?app_assoc; reflexivity].
  repeat (rewrite Hr; cbn).
  unfold write_session_approach, write_state_approach, install, cancel_request.
  cbn. rewrite <- ?app_assoc. reflexivity.
Qed.







End Properties.

(** ** The properties on concrete sessions *)

(** In the refinement state, whose phase is Approach, [decreaseRetries]
    takes one off [approachRetries] and leaves [codeGenRetries]. *)
Lemma decreaseRetries_by_phase_witness :
  _state (session Sample.refining) = Some 1%nat /\
  approachRetries (session (decreaseRetries Sample.refining).2) = 2 /\
  codeGenRetries (session (decreaseRetries Sample.refining).2) = 3.
Proof.
  split; [reflexivity|].
  destruct (decreaseRetries_by_phase Sample.refining 1%nat eq_refl) as (_ & A & _).
  destruct (A eq_refl) as (_ & Ha & Hc). split; [exact Ha | exact Hc].
Defined.

(** In the not-started state of a new session, whose phase is neither
    Approach nor Codegen, [retries] gives [approachRetries]. *)
Lemma retries_by_phase_witness :
  _state (session Sample.fresh_world) = Some 0%nat /\
  retries Sample.fresh_world = (Ok 3, Sample.fresh_world) /\
  (decreaseRetries Sample.fresh_world).2 = Sample.fresh_world.
Proof.
  split; [reflexivity|].
  destruct (retries_by_phase Sample.fresh_world 0%nat eq_refl) as (_ & _ & _ & C).
  destruct (C ltac:(discriminate) ltac:(discriminate)) as (R & D & _).
  split; [exact R | exact D].
Defined.

(** [setupConversation] on a new session, with a backend that answers. *)
Lemma setupConversation_protocol_witness :
  (setupConversation Sample.backend_ok Sample.fresh_world).1 = Ok tt /\
  conversationId Sample.refining = (Ok "c1", Sample.refining) /\
  uploadId Sample.refining = (Ok "u1", Sample.refining) /\
  current_class Sample.refining = Some RefinementState /\
  trace Sample.refining =
    [CreateConversation; GetSourceCodePath "/ws" "src"; PrepareRepoData "/ws/src";
     CreateUploadUrl (Some "c1") "checksum"; UploadCode "https://upload" [x50; x4b]].
Proof.
  split; [reflexivity|].
  destruct (setupConversation_protocol Sample.backend_ok Sample.fresh_world eq_refl)
    as (cid & pth & buf & chk & url & uid & r & E1 & E2 & E3 & E4 & E5 & T & C & U & S & _).
  repeat split; reflexivity.
Defined.

(** [send] in the refinement state, with an [interact] that edits the
    approach and hands over to a code generation state. *)
Lemma send_installs_successor_witness :
  let w' := (send Sample.backend_moving "do it" Sample.refining).2 in
  _state (session Sample.refining) = Some 1%nat /\
  _state (session w') = Some 7%nat /\
  SessionState.approach (heap w' !!! 7%nat) = "edited plan" /\
  approach (session w') = "edited plan" /\
  SessionState.tokenCancelled (heap w' !!! 1%nat) = true.
Proof.
  split; [reflexivity|].
  destruct (send_installs_successor Sample.backend_moving "do it" Sample.refining
              1%nat 7%nat [] (mkResp (Some 7%nat) ["plan"])
              (interact Sample.backend_moving 1%nat (mkAction [] "do it" (Some "do it"))
                 (heap Sample.refining)).2
              eq_refl eq_refl eq_refl eq_refl)
    as (_ & _ & S & A & A' & C & _).
  repeat split; assumption.
Defined.

(** [send] in the refinement state, with an [interact] that returns no
    successor. *)
Lemma send_without_successor_witness :
  let w' := (send Sample.backend_ok "do it" Sample.refining).2 in
  _state (session Sample.refining) = Some 1%nat /\
  _state (session w') = Some 1%nat /\
  approach (session w') = approach (session Sample.refining) /\
  heap w' = heap Sample.refining /\
  trace w' = trace Sample.refining ++
    [CollectFiles "/ws"; Interact 1%nat (mkAction [("a.ts", "let a")] "do it" (Some "do it"))].
Proof.
  split; [reflexivity|].
  destruct (send_without_successor Sample.backend_ok "do it" Sample.refining
              1%nat [("a.ts", "let a")] Sample.quiet (heap Sample.refining)
              eq_refl eq_refl eq_refl eq_refl)
    as (_ & S & A & _ & _ & H & T & _).
  repeat split; assumption.
Defined.

(** [acceptChanges] on a state with a relative and an absolute path. *)
Lemma acceptChanges_writes_generated_files_witness :
  _state (session Sample.generating) = Some 7%nat /\
  (acceptChanges Sample.platform Sample.backend_ok Sample.generating).1 = Ok tt /\
  trace (acceptChanges Sample.platform Sample.backend_ok Sample.generating).2 =
    trace Sample.generating ++
    [ReadFile (mkUri "weaverbird" "src/a.ts"); Mkdir "/ws/src"; WriteFile "/ws/src/a.ts" "hi";
     ReadFile (mkUri "weaverbird" "/tmp/b.ts"); Mkdir "/tmp"; WriteFile "/tmp/b.ts" "hi"].
Proof.
  split; [reflexivity|].
  destruct (acceptChanges_writes_generated_files Sample.platform Sample.backend_ok
              Sample.generating 7%nat (fun _ => [x68; x69]) eq_refl) as (E & _).
  - intros p _. repeat split.
  - rewrite E. split; reflexivity.
Defined.



(** C7, as it is stated, fails.  A backend that gives empty strings as
    identifiers has them stored by [setupConversation], and both getters
    throw although an identifier is stored. *)
Lemma stored_empty_identifier_counterexample :
  let w := run Sample.platform [SetupConversation Sample.backend_empty_ids]
             Sample.fresh_world in
  _conversationId (session w) = Some EmptyString /\
  conversationId w = (Throw ConversationIdNotFoundError, w) /\
  _uploadId (session w) = Some EmptyString /\
  uploadId w = (Throw (Error "UploadId should be initialized before it's read"), w).
Proof. repeat split; reflexivity. Qed.


(** ** Further properties of the methods *)

Section Further.
Variable P : Platform.

Ltac unfold_all :=
  unfold state, conversationId, uploadId, getSessionStateConfig, deref, mutate, new,
    log, call, call_interact, update, this, throw, discard,
    mbind, M_bind, mret, M_ret in *.

(** *** [initCodegen] and [getSessionStateConfig] *)

(** X1.  [initCodegen] throws [ConversationIdNotFoundError] when the
    conversation identifier is missing or empty, whatever the upload
    identifier is, and the error of [uploadId] when only the upload identifier
    is missing or empty; in both cases it leaves the world as it is.  With
    both identifiers stored and not empty it returns, having made no call to a
    collaborator: the current state is a new code generation state, at an
    address that was not in use, that carries the two identifiers, the
    configuration and the tab of the session and the approach of the session;
    every object that was in the store is as it was, the state left behind
    included, whose request is not cancelled. *)
Theorem initCodegen_needs_identifiers (w : World) :
  let s := session w in
  (falsy (_conversationId s) = true ->
     initCodegen w = (Throw ConversationIdNotFoundError, w)) /\
  (falsy (_conversationId s) = false -> falsy (_uploadId s) = true ->
     initCodegen w =
     (Throw (Error "UploadId should be initialized before it's read"), w)) /\
  (forall cid uid,
     _conversationId s = Some cid -> cid <> EmptyString ->
     _uploadId s = Some uid -> uid <> EmptyString ->
     exists r,
       (r ∉ dom (heap w)) /\
       initCodegen w =
       (Ok tt,
        mkWorld (set_state r s)
          (<[r := SessionState.new_CodeGenState
                    (SessionStateConfig.mk (llmConfig (config s))
                       (workspaceRoot (config s)) (backendConfig (config s)) cid uid)
                    (approach s) (tabID s)]> (heap w))
          (trace w)) /\
       (forall r0, r0 ∈ dom (heap w) ->
          heap (initCodegen w).2 !! r0 = heap w !! r0)).
Proof.
  cbn zeta. split; [|split].
  - intros F. unfold initCodegen. unfold_all. cbn. unfold_all. cbn. now rewrite F.
  - intros Fc Fu. unfold initCodegen. unfold_all. cbn. unfold_all. cbn.
    rewrite Fc. cbn. now rewrite Fu.
  - intros cid uid Ec Nc Eu Nu.
    assert (Fc : falsy (_conversationId (session w)) = false).
    { rewrite Ec. unfold falsy. now apply String.eqb_neq. }
    assert (Fu : falsy (_uploadId (session w)) = false).
    { rewrite Eu. unfold falsy. now apply String.eqb_neq. }
    exists (fresh (dom (heap w))).
    rewrite (initCodegen_ok w Fc Fu), Ec, Eu. cbn.
    split; [apply is_fresh|]. split; [reflexivity|].
    intros r0 Hr0. apply lookup_insert_ne. intros <-. now apply (is_fresh (dom (heap w))).
Qed.

(** *** [setupConversation] when it fails *)

(** X2.  A [setupConversation] that throws leaves the current state, the
    store, the task, the approach and the retry counters as they were; but
    what it stored before the failure stays stored: the conversation
    identifier as soon as [createConversation] has answered, and the upload
    identifier as soon as [createUploadUrl] has answered.  When
    [createConversation] itself throws, its error is the one thrown and
    nothing of the session changes. *)
Theorem setupConversation_failure (B : Backend) (w : World) (e : Err) :
  (setupConversation B w).1 = Throw e ->
  let root := workspaceRoot (config (session w)) in
  let w' := (setupConversation B w).2 in
  _state (session w') = _state (session w) /\
  heap w' = heap w /\
  task (session w') = task (session w) /\
  approach (session w') = approach (session w) /\
  approachRetries (session w') = approachRetries (session w) /\
  codeGenRetries (session w') = codeGenRetries (session w) /\
  (forall e0, createConversation B = Throw e0 ->
     e = e0 /\ session w' = session w /\ trace w' = trace w ++ [CreateConversation]) /\
  (forall cid, createConversation B = Ok cid -> _conversationId (session w') = Some cid) /\
  (forall cid pth buf chk url uid,
     createConversation B = Ok cid ->
     getSourceCodePath B root "src" = Ok pth ->
     prepareRepoData B pth = Ok (buf, chk) ->
     createUploadUrl B (Some cid) chk = Ok (url, uid) ->
     _uploadId (session w') = Some uid).
Proof.
  intros H root w'.
  destruct (setupConversation_throws B w e H) as [Eh Es].
  assert (K : task (session w') = task (session w) /\
              approach (session w') = approach (session w) /\
              approachRetries (session w') = approachRetries (session w) /\
              codeGenRetries (session w') = codeGenRetries (session w)).
  { apply (keeps_setupConversation (fun w0 =>
      task (session w0) = task (session w) /\
      approach (session w0) = approach (session w) /\
      approachRetries (session w0) = approachRetries (session w) /\
      codeGenRetries (session w0) = codeGenRetries (session w))); cbn; auto. }
  destruct K as (K1 & K2 & K3 & K4).
  split; [exact Es|]. split; [exact Eh|].
  split; [exact K1|]. split; [exact K2|]. split; [exact K3|]. split; [exact K4|].
  subst w' root. revert H.
  unfold setupConversation. unfold_all. unfold alloc. cbn.
  destruct (createConversation B) as [cid|e1] eqn:E1; cbn;
    [|intros; repeat split; intros; cbn; congruence].
  destruct (getSourceCodePath B _ _) as [pth|e2] eqn:E2; cbn;
    [|intros; repeat split; intros; cbn; congruence].
  destruct (prepareRepoData B pth) as [[buf chk]|e3] eqn:E3; cbn;
    [|intros; repeat split; intros; cbn; congruence].
  destruct (createUploadUrl B (Some cid) chk) as [[url uid]|e4] eqn:E4; cbn;
    [|intros; repeat split; intros; cbn; congruence].
  destruct (uploadCode B url buf) as [[]|e5] eqn:E5; cbn;
    [|intros; repeat split; intros; cbn; congruence].
  unfold_all. unfold falsy. cbn.
  destruct (String.eqb cid EmptyString) eqn:Ecid; cbn;
    [intros; repeat split; intros; cbn; congruence|].
  destruct (String.eqb uid EmptyString) eqn:Euid; cbn;
    [intros; repeat split; intros; cbn; congruence|].
  rewrite ?Ecid. cbn. discriminate.
Qed.
(** X3.  [setupConversation] looks at the identifiers only after the archive
    has been uploaded.  When the backend answers every call but gives an empty
    conversation identifier, all five calls are made, [createUploadUrl] with
    that empty identifier, both identifiers are stored, and then
    [ConversationIdNotFoundError] is thrown; when only the upload identifier
    is empty, the error of [uploadId] is thrown at the same point.  In both
    cases the current state and the store are left as they were. *)
Theorem setupConversation_checks_identifiers_last (B : Backend) (w : World)
    (cid pth : string) (buf : list byte) (chk url uid : string) :
  let root := workspaceRoot (config (session w)) in
  createConversation B = Ok cid ->
  getSourceCodePath B root "src" = Ok pth ->
  prepareRepoData B pth = Ok (buf, chk) ->
  createUploadUrl B (Some cid) chk = Ok (url, uid) ->
  uploadCode B url buf = Ok tt ->
  let left :=
    mkWorld (set_uploadId uid (set_conversationId cid (session w))) (heap w)
      (trace w ++
       [CreateConversation; GetSourceCodePath root "src"; PrepareRepoData pth;
        CreateUploadUrl (Some cid) chk; UploadCode url buf]) in
  (cid = EmptyString ->
     setupConversation B w = (Throw ConversationIdNotFoundError, left)) /\
  (cid <> EmptyString -> uid = EmptyString ->
     setupConversation B w =
     (Throw (Error "UploadId should be initialized before it's read"), left)).
Proof.
  intros root E1 E2 E3 E4 E5 left. subst root left.
  split.
  - intros ->. unfold setupConversation. unfold_all. unfold alloc. cbn.
    rewrite E1. cbn. rewrite E2. cbn. rewrite E3. cbn. rewrite E4. cbn. rewrite E5. cbn.
    unfold_all. unfold falsy. cbn. rewrite <- ?app_assoc. reflexivity.
  - intros N ->. apply String.eqb_neq in N.
    unfold setupConversation. unfold_all. unfold alloc. cbn.
    rewrite E1. cbn. rewrite E2. cbn. rewrite E3. cbn. rewrite E4. cbn. rewrite E5. cbn.
    unfold_all. unfold falsy. cbn. rewrite N. cbn. rewrite <- ?app_assoc. reflexivity.
Qed.

(** X4.  Whatever the collaborators answer, [setupConversation] leaves
    every object that was in the store as it was: unlike the change of state
    in [nextInteraction], it does not cancel the request of the state it
    replaces.  It also leaves the task, the approach of the session and both
    retry counters alone, so that after a set-up the session can hold an
    approach while its new refinement state has an empty one. *)
Theorem setupConversation_leaves_objects (B : Backend) (w : World) :
  let w' := (setupConversation B w).2 in
  (forall r0, r0 ∈ dom (heap w) -> heap w' !! r0 = heap w !! r0) /\
  task (session w') = task (session w) /\
  approach (session w') = approach (session w) /\
  approachRetries (session w') = approachRetries (session w) /\
  codeGenRetries (session w') = codeGenRetries (session w) /\
  ((setupConversation B w).1 = Ok tt ->
   exists r, _state (session w') = Some r /\
             SessionState.approach (heap w' !!! r) = EmptyString).
Proof.
  cbn zeta. split; [|split; [|split; [|split; [|split]]]].
  - intros r0 Hr0. destruct ((setupConversation B w).1) as [[]|e] eqn:E.
    + destruct (setupConversation_inv B w E)
        as (cid & pth & buf & chk & url & uid & E1 & E2 & E3 & E4 & E5 & Ncid & Nuid).
      rewrite (setupConversation_ok B w cid pth buf chk url uid E1 E2 E3 E4 E5 Ncid Nuid).
      cbn. apply lookup_insert_ne. intros <-. now apply (is_fresh (dom (heap w))).
    + destruct (setupConversation_throws B w e E) as [-> _]. reflexivity.
  - apply (keeps_setupConversation (fun w0 => task (session w0) = task (session w)));
      cbn; auto.
  - apply (keeps_setupConversation (fun w0 => approach (session w0) = approach (session w)));
      cbn; auto.
  - apply (keeps_setupConversation
             (fun w0 => approachRetries (session w0) = approachRetries (session w)));
      cbn; auto.
  - apply (keeps_setupConversation
             (fun w0 => codeGenRetries (session w0) = codeGenRetries (session w)));
      cbn; auto.
  - intros E.
    destruct (setupConversation_inv B w E)
      as (cid & pth & buf & chk & url & uid & E1 & E2 & E3 & E4 & E5 & Ncid & Nuid).
    rewrite (setupConversation_ok B w cid pth buf chk url uid E1 E2 E3 E4 E5 Ncid Nuid).
    cbn. eexists. split; [reflexivity|]. now rewrite lookup_total_insert_eq.
Qed.

(** X14.  [setupConversation] completes exactly when every collaborator
    answers, [createUploadUrl] being asked with the identifier
    [createConversation] gave and the checksum [prepareRepoData] gave, and
    both identifiers are non-empty strings. *)
Theorem setupConversation_completes_iff (B : Backend) (w : World) :
  (setupConversation B w).1 = Ok tt <->
  exists cid pth buf chk url uid,
    createConversation B = Ok cid /\
    getSourceCodePath B (workspaceRoot (config (session w))) "src" = Ok pth /\
    prepareRepoData B pth = Ok (buf, chk) /\
    createUploadUrl B (Some cid) chk = Ok (url, uid) /\
    uploadCode B url buf = Ok tt /\
    cid <> EmptyString /\ uid <> EmptyString.
Proof.
  split.
  - apply setupConversation_inv.
  - intros (cid & pth & buf & chk & url & uid & E1 & E2 & E3 & E4 & E5 & Nc & Nu).
    now rewrite (setupConversation_ok B w cid pth buf chk url uid E1 E2 E3 E4 E5 Nc Nu).
Qed.

(** *** The retry counters *)

Lemma decreaseRetries_keeps_state (w : World) :
  _state (session (decreaseRetries w).2) = _state (session w) /\
  heap (decreaseRetries w).2 = heap w.
Proof.
  apply (keeps_decreaseRetries (fun w0 =>
    _state (session w0) = _state (session w) /\ heap w0 = heap w)); cbn; auto.
Qed.

(** X5.  [decreaseRetries] has no floor.  With [r] the current state, [n]
    calls in a row take exactly [n] off the counter of the phase of [r] and
    leave the other counter alone, and [retries] then gives the first value
    less [n], which is negative once [n] is above it; in a phase other than
    Approach and Codegen the [n] calls change nothing. *)
Theorem decreaseRetries_repeated (w : World) (r : Ref) (n : nat) :
  _state (session w) = Some r ->
  let ph := SessionState.phase (heap w !!! r) in
  let s := session w in
  let w' := run P (replicate n DecreaseRetries) w in
  (ph = "Approach" ->
     approachRetries (session w') = approachRetries s - Z.of_nat n /\
     codeGenRetries (session w') = codeGenRetries s /\
     retries w' = (Ok (approachRetries s - Z.of_nat n), w')) /\
  (ph = "Codegen" ->
     codeGenRetries (session w') = codeGenRetries s - Z.of_nat n /\
     approachRetries (session w') = approachRetries s /\
     retries w' = (Ok (codeGenRetries s - Z.of_nat n), w')) /\
  (ph <> "Approach" -> ph <> "Codegen" -> w' = w).
Proof.
  intros Hr. cbn zeta. revert w Hr.
  induction n as [|n IH]; intros w Hr.
  - cbn [replicate run foldl]. rewrite (retries_eq w r Hr). cbn.
    rewrite !Z.sub_0_r.
    split; [|split]; [intros E; rewrite E; auto ..|reflexivity].
  - cbn [replicate run foldl perform].
    change (foldl _ ?w0 (replicate n DecreaseRetries))
      with (run P (replicate n DecreaseRetries) w0).
    destruct (decreaseRetries_keeps_state w) as [Ks Kh].
    assert (Hr' : _state (session (decreaseRetries w).2) = Some r) by now rewrite Ks.
    specialize (IH _ Hr'). rewrite Kh in IH.
    destruct IH as (IA & IC & IO).
    rewrite (decreaseRetries_eq w r Hr) in *. cbn [snd] in *.
    split; [|split].
    + intros E. destruct (IA E) as (A1 & A2 & A3). rewrite A3.
      rewrite E in *. cbn in *. rewrite A1, A2.
      replace (approachRetries (session w) - 1 - Z.of_nat n)
        with (approachRetries (session w) - Z.pos (Pos.of_succ_nat n)) by lia.
      auto.
    + intros E. destruct (IC E) as (A1 & A2 & A3). rewrite A3.
      assert (Ea : String.eqb (SessionState.phase (heap w !!! r)) "Approach" = false)
        by now rewrite E.
      rewrite Ea in *. rewrite E in *. cbn in *. rewrite A1, A2.
      replace (codeGenRetries (session w) - 1 - Z.of_nat n)
        with (codeGenRetries (session w) - Z.pos (Pos.of_succ_nat n)) by lia.
      auto.
    + intros Ea Ec. rewrite (IO Ea Ec).
      apply String.eqb_neq in Ea, Ec. now rewrite Ea, Ec.
Qed.
Lemma perform_counters (op : Op) (w : World) :
  let w' := (perform P op w).2 in
  match op with
  | DecreaseRetries =>
      approachRetries (session w') <= approachRetries (session w) /\
      codeGenRetries (session w') <= codeGenRetries (session w)
  | _ =>
      approachRetries (session w') = approachRetries (session w) /\
      codeGenRetries (session w') = codeGenRetries (session w)
  end.
Proof.
  cbn zeta. destruct op as [B| |msg B|B|]; cbn [perform].
  - apply (keeps_setupConversation (fun w0 =>
      approachRetries (session w0) = approachRetries (session w) /\
      codeGenRetries (session w0) = codeGenRetries (session w))); cbn; auto.
  - apply (keeps_initCodegen (fun w0 =>
      approachRetries (session w0) = approachRetries (session w) /\
      codeGenRetries (session w0) = codeGenRetries (session w))); cbn; auto.
  - assert (Es : (discard (send B msg) w).2 = (send B msg w).2).
    { unfold discard, mbind, M_bind. now destruct (send B msg w) as [[a|e] w1]. }
    rewrite Es.
    apply (keeps_send (fun w0 =>
      approachRetries (session w0) = approachRetries (session w) /\
      codeGenRetries (session w0) = codeGenRetries (session w))); cbn; auto.
  - apply (keeps_acceptChanges P (fun w0 =>
      approachRetries (session w0) = approachRetries (session w) /\
      codeGenRetries (session w0) = codeGenRetries (session w))); cbn; auto.
  - destruct (_state (session w)) as [r|] eqn:Hr.
    + rewrite (decreaseRetries_eq w r Hr). cbn.
      repeat case_match; cbn; lia.
    + unfold decreaseRetries. unfold_all. cbn. rewrite Hr. cbn. lia.
Qed.

(** X6.  The retry counters are never raised and never reset.  Of the
    methods only [decreaseRetries] changes them: [setupConversation],
    [initCodegen], [send] and [acceptChanges] leave both as they are, also
    when they install a new state; so along any sequence of calls on a new
    session each counter stays at or below its limit. *)
Theorem retry_counters_never_reset (cfg : SessionConfig) (tab : string) (ops : list Op) :
  let w := run P ops (constructor P cfg tab) in
  approachRetries (session w) <= approachRetryLimit P /\
  codeGenRetries (session w) <= codeGenRetryLimit P /\
  (forall op w0,
     match op with
     | DecreaseRetries => True
     | _ =>
         approachRetries (session (perform P op w0).2) = approachRetries (session w0) /\
         codeGenRetries (session (perform P op w0).2) = codeGenRetries (session w0)
     end).
Proof.
  cbn zeta.
  assert (G : forall ops w0,
    approachRetries (session (run P ops w0)) <= approachRetries (session w0) /\
    codeGenRetries (session (run P ops w0)) <= codeGenRetries (session w0)).
  { clear ops. induction ops as [|op ops IH]; intros w0; cbn [run foldl]; [lia|].
    change (foldl _ ?w1 ops) with (run P ops w1).
    specialize (IH (perform P op w0).2).
    pose proof (perform_counters op w0) as C. cbn zeta in C.
    destruct op; lia. }
  destruct (G ops (constructor P cfg tab)) as [Ga Gc].
  split; [exact Ga|]. split; [exact Gc|].
  intros op w0. pose proof (perform_counters op w0) as C. cbn zeta in C.
  destruct op; auto.
Qed.

(** *** [send] when a collaborator fails, and when the successor is the
    state itself *)

(** X7.  With [r] the current state: when [collectFiles] throws, [send]
    throws the same error and [interact] is not called at all; when
    [interact] throws, [send] throws the same error, the current state stays
    [r], nothing is cancelled and the store is the one [interact] left.  In
    both cases the message has already been taken as the task when the task
    was empty: a [send] that fails still fixes the task. *)
Theorem send_failure (B : Backend) (msg : string) (w : World) (r : Ref) :
  _state (session w) = Some r ->
  let s1 := assign_task msg (session w) in
  let root := workspaceRoot (config (session w)) in
  (forall e, collectFiles B root = Throw e ->
     send B msg w = (Throw e, mkWorld s1 (heap w) (trace w ++ [CollectFiles root]))) /\
  (forall files e,
     collectFiles B root = Ok files ->
     let a := mkAction files (task s1) (Some msg) in
     (interact B r a (heap w)).1 = Throw e ->
     send B msg w =
     (Throw e,
      mkWorld s1 (interact B r a (heap w)).2
        (trace w ++ [CollectFiles root; Interact r a]))) /\
  _state s1 = Some r /\
  (task (session w) = EmptyString -> task s1 = msg).
Proof.
  intros Hr s1 root.
  assert (Hr1 : _state s1 = Some r).
  { subst s1. unfold assign_task. destruct (String.eqb _ _); cbn; exact Hr. }
  assert (Hc : config s1 = config (session w)).
  { subst s1. unfold assign_task. destruct (String.eqb _ _); reflexivity. }
  pose proof (nextInteraction_cases B (Some msg)
                (mkWorld s1 (heap w) (trace w)) r Hr1) as N.
  cbn zeta in N. cbn [session heap trace] in N. rewrite Hc in N. fold root in N.
  split; [|split; [|split]].
  - intros e E. rewrite send_eq. fold s1. rewrite N, E. reflexivity.
  - intros files e E a Ei. rewrite send_eq. fold s1. rewrite N, E. fold a.
    now rewrite Ei.
  - exact Hr1.
  - intros E. subst s1. unfold assign_task. rewrite E. reflexivity.
Qed.

(** X8.  When [interact] returns, as the successor, the state [r] it ran
    on, [send] keeps the session on [r] and cancels the request of [r]: the
    current state is then a state whose token is cancelled.  Its approach is
    the one [interact] left, which becomes the approach of the session. *)
Theorem send_successor_is_current (B : Backend) (msg : string) (w : World)
    (r : Ref) (files : Files) (resp : SessionStateInteraction) (h1 : Heap) :
  _state (session w) = Some r ->
  let s1 := assign_task msg (session w) in
  let root := workspaceRoot (config (session w)) in
  let a := mkAction files (task s1) (Some msg) in
  collectFiles B root = Ok files ->
  interact B r a (heap w) = (Ok resp, h1) ->
  nextState resp = Some r ->
  let w' := (send B msg w).2 in
  _state (session w') = Some r /\
  heap w' = <[r := SessionState.cancel (h1 !!! r)]> h1 /\
  SessionState.tokenCancelled (heap w' !!! r) = true /\
  SessionState.approach (heap w' !!! r) = SessionState.approach (h1 !!! r) /\
  approach (session w') = SessionState.approach (h1 !!! r).
Proof.
  intros Hr s1 root a Hf Hi Hn.
  assert (Hr1 : _state s1 = Some r).
  { subst s1. unfold assign_task. destruct (String.eqb _ _); cbn; exact Hr. }
  assert (Hc : config s1 = config (session w)).
  { subst s1. unfold assign_task. destruct (String.eqb _ _); reflexivity. }
  pose proof (nextInteraction_cases B (Some msg)
                (mkWorld s1 (heap w) (trace w)) r Hr1) as N.
  cbn zeta in N. cbn [session heap trace] in N. rewrite Hc in N. fold root in N.
  rewrite Hf in N. fold a in N. rewrite Hi in N. cbn [fst snd] in N. rewrite Hn in N.
  cbn zeta. rewrite send_eq. fold s1. rewrite N.
  unfold write_session_approach, write_state_approach, install, cancel_request. cbn.
  rewrite !lookup_total_insert_eq, insert_insert_eq.
  assert (Eo : SessionState.set_approach (SessionState.approach (h1 !!! r))
                 (SessionState.cancel (h1 !!! r)) = SessionState.cancel (h1 !!! r)).
  { now destruct (h1 !!! r). }
  rewrite Eo. auto.
Qed.
(** *** [acceptChanges] when a call fails *)

Lemma for_of_split {A : Type} (body : A -> M unit) (l1 l2 : list A) :
  forall w,
  for_of (l1 ++ l2) body w =
  match for_of l1 body w with
  | (Ok _, w1) => for_of l2 body w1
  | (Throw e, w1) => (Throw e, w1)
  end.
Proof.
  induction l1 as [|x l1 IH]; intros w; cbn.
  - reflexivity.
  - unfold mbind, M_bind. destruct (body x w) as [[[]|e] w1]; [apply IH | reflexivity].
Qed.

(** X9.  [acceptChanges] stops at the first call that fails and undoes
    nothing.  Let the paths of the current state be [pre], then [p], then
    [post], with every call for the paths of [pre] succeeding.  When the read
    of the virtual file of [p] throws, or the making of the directory of its
    target, or the writing of the target, [acceptChanges] throws the same
    error; the calls made are those for the paths of [pre], whose files stay
    written, and the calls for [p] up to the one that failed; no path of
    [post] is read or written. *)
Theorem acceptChanges_stops_at_first_failure (B : Backend) (w : World) (r : Ref)
    (content : string -> list byte) (pre : list string) (p : string)
    (post : list string) (e : Err) :
  _state (session w) = Some r ->
  let root := workspaceRoot (config (session w)) in
  default [] (SessionState.filePaths (heap w !!! r)) = pre ++ p :: post ->
  (forall q, q ∈ pre ->
     readFile B (mkUri (weaverbirdScheme P) q) = Ok (content q) /\
     mkdir B (dirname P (absolutePath P root q)) = Ok tt /\
     writeFile B (absolutePath P root q) (decode P (content q)) = Ok tt) ->
  let done := flat_map (fun q => accept_one P root (content q) q) pre in
  let uri := mkUri (weaverbirdScheme P) p in
  let target := absolutePath P root p in
  let left := fun calls => mkWorld (session w) (heap w) (trace w ++ done ++ calls) in
  (readFile B uri = Throw e ->
     acceptChanges P B w = (Throw e, left [ReadFile uri])) /\
  (forall c, readFile B uri = Ok c -> mkdir B (dirname P target) = Throw e ->
     acceptChanges P B w = (Throw e, left [ReadFile uri; Mkdir (dirname P target)])) /\
  (forall c, readFile B uri = Ok c -> mkdir B (dirname P target) = Ok tt ->
     writeFile B target (decode P c) = Throw e ->
     acceptChanges P B w =
     (Throw e,
      left [ReadFile uri; Mkdir (dirname P target); WriteFile target (decode P c)])).
Proof.
  intros Hr root Hp Hok done uri target left.
  assert (E : acceptChanges P B w =
    for_of (p :: post)
      (fun filePath => s ← this;
         let absolutePath :=
           if isAbsolute P filePath then filePath
           else join P (workspaceRoot (config s)) filePath in
         let uri := mkUri (weaverbirdScheme P) filePath in
         content ← call (ReadFile uri) (readFile B uri);
         let decodedContent := decode P content in
         call (Mkdir (dirname P absolutePath)) (mkdir B (dirname P absolutePath));;
         call (WriteFile absolutePath decodedContent)
           (writeFile B absolutePath decodedContent))
      (mkWorld (session w) (heap w) (trace w ++ done))).
  { unfold acceptChanges. unfold mbind at 1 2. unfold M_bind.
    rewrite (state_defined w r Hr). unfold deref at 1. rewrite Hp, for_of_split.
    rewrite (for_of_app _ (fun q => accept_one P root (content q) q) pre w);
      [reflexivity|].
    intros q w0 Hq Hs Hh. destruct (Hok q Hq) as (Er & Em & Ew).
    unfold_all. unfold accept_one, absolutePath in *. subst root. rewrite Hs. cbn.
    rewrite Er. cbn. rewrite Em. cbn. rewrite Ew. cbn.
    rewrite <- ?app_assoc. reflexivity. }
  rewrite E. subst left done uri target root. unfold absolutePath.
  cbn [for_of]. unfold_all. cbn.
  split; [|split].
  - intros ->. cbn. rewrite <- ?app_assoc. reflexivity.
  - intros c -> Em. cbn. rewrite Em. cbn. rewrite <- ?app_assoc. reflexivity.
  - intros c -> Em Ew. cbn. rewrite Em. cbn. rewrite Ew. cbn.
    rewrite <- ?app_assoc. reflexivity.
Qed.

Lemma for_of_logs {A : Type} (Q : Event -> bool) (body : A -> M unit) :
  (forall x w0, exists l, trace (body x w0).2 = trace w0 ++ l /\ forallb Q l = true) ->
  forall l0 w0,
  exists l, trace (for_of l0 body w0).2 = trace w0 ++ l /\ forallb Q l = true.
Proof.
  intros Hb. induction l0 as [|x l0 IH]; intros w0; cbn.
  - exists []. now rewrite app_nil_r.
  - unfold mbind, M_bind. destruct (Hb x w0) as (l1 & T1 & Q1).
    destruct (body x w0) as [[[]|e] w1]; cbn in *.
    + destruct (IH w1) as (l2 & T2 & Q2). exists (l1 ++ l2).
      rewrite T2, T1, <- app_assoc, forallb_app, Q1, Q2. auto.
    + exists l1. auto.
Qed.

(** X10.  Whatever the collaborators answer, [acceptChanges] changes
    neither the session nor the store, so the file paths of the current state
    are still there for a second call; and every call it makes is a call to a
    file system: a read of a virtual file, the making of a directory or the
    writing of a file.  It calls neither the backend nor [interact] and
    cancels nothing. *)
Theorem acceptChanges_only_touches_files (B : Backend) (w : World) :
  let w' := (acceptChanges P B w).2 in
  session w' = session w /\
  heap w' = heap w /\
  exists calls, trace w' = trace w ++ calls /\ forallb fs_event calls = true.
Proof.
  cbn zeta.
  assert (K : session (acceptChanges P B w).2 = session w /\
              heap (acceptChanges P B w).2 = heap w).
  { apply (keeps_acceptChanges P (fun w0 => session w0 = session w /\ heap w0 = heap w));
      cbn; auto. }
  destruct K as [Ks Kh]. split; [exact Ks|]. split; [exact Kh|].
  unfold acceptChanges. unfold mbind at 1 2. unfold M_bind. unfold state at 1.
  unfold mbind at 1. unfold M_bind, this.
  destruct (_state (session w)) as [r|]; cbn.
  - apply for_of_logs. intros p w0. unfold_all. cbn.
    destruct (readFile B _) as [c|e]; cbn.
    + destruct (mkdir B _) as [[]|e]; cbn.
      * eexists. rewrite <- !app_assoc. split; [reflexivity|]. reflexivity.
      * eexists. rewrite <- !app_assoc. split; [reflexivity|]. reflexivity.
    + eexists. split; reflexivity.
  - exists []. now rewrite app_nil_r.
Qed.
(** *** The approach, from [send] to [initCodegen] *)

(** X11.  [initCodegen] gives the new code generation state the approach of
    the session, and [send] refreshes that one only when the state changes.
    So with [initCodegen] called after a [send] on the state [r]: when
    [interact] returned a successor, the new state gets the approach [r] had
    when [interact] returned; when it returned none, the new state gets the
    approach the session had before, even if [interact] rewrote the approach
    of [r]. *)
Theorem initCodegen_takes_session_approach (B : Backend) (msg : string) (w : World)
    (r : Ref) (files : Files) (resp : SessionStateInteraction) (h1 : Heap)
    (cid uid : string) :
  _state (session w) = Some r ->
  let s1 := assign_task msg (session w) in
  let root := workspaceRoot (config (session w)) in
  let a := mkAction files (task s1) (Some msg) in
  collectFiles B root = Ok files ->
  interact B r a (heap w) = (Ok resp, h1) ->
  _conversationId (session w) = Some cid -> cid <> EmptyString ->
  _uploadId (session w) = Some uid -> uid <> EmptyString ->
  let w2 := (initCodegen (send B msg w).2).2 in
  exists r2,
    _state (session w2) = Some r2 /\
    SessionState.cls (heap w2 !!! r2) = CodeGenState /\
    SessionState.approach (heap w2 !!! r2) =
      match nextState resp with
      | Some _ => SessionState.approach (h1 !!! r)
      | None => approach (session w)
      end.
Proof.
  intros Hr s1 root a Hf Hi Ec Nc Eu Nu.
  assert (Hr1 : _state s1 = Some r).
  { subst s1. unfold assign_task. destruct (String.eqb _ _); cbn; exact Hr. }
  assert (Hs1 : config s1 = config (session w) /\ approach s1 = approach (session w) /\
                _conversationId s1 = Some cid /\ _uploadId s1 = Some uid).
  { subst s1. unfold assign_task. destruct (String.eqb _ _); cbn; auto. }
  destruct Hs1 as (Hc & Ha & Hci & Hui).
  pose proof (nextInteraction_cases B (Some msg)
                (mkWorld s1 (heap w) (trace w)) r Hr1) as N.
  cbn zeta in N. cbn [session heap trace] in N. rewrite Hc in N. fold root in N.
  rewrite Hf in N. fold a in N. rewrite Hi in N. cbn [fst snd] in N.
  cbn zeta. rewrite send_eq. fold s1. rewrite N.
  apply String.eqb_neq in Nc, Nu.
  destruct (nextState resp) as [next|]; cbn [snd].
  - rewrite initCodegen_ok; cbn; rewrite ?Hci, ?Hui; unfold falsy; auto.
    eexists. split; [reflexivity|].
    rewrite lookup_total_insert_eq. cbn. auto.
  - rewrite initCodegen_ok; cbn; rewrite ?Hci, ?Hui; unfold falsy; auto.
    eexists. split; [reflexivity|].
    rewrite lookup_total_insert_eq. cbn. auto.
Qed.

(** *** Where the identifiers come from *)

Lemma perform_identifiers (op : Op) (w : World) :
  match op with
  | SetupConversation _ => True
  | _ =>
      _conversationId (session (perform P op w).2) = _conversationId (session w) /\
      _uploadId (session (perform P op w).2) = _uploadId (session w)
  end.
Proof.
  destruct op as [B| |msg B|B|]; cbn [perform]; [exact I| | | |].
  - apply (keeps_initCodegen (fun w0 =>
      _conversationId (session w0) = _conversationId (session w) /\
      _uploadId (session w0) = _uploadId (session w))); cbn; auto.
  - assert (Es : (discard (send B msg) w).2 = (send B msg w).2).
    { unfold discard, mbind, M_bind. now destruct (send B msg w) as [[a|e] w1]. }
    rewrite Es.
    apply (keeps_send (fun w0 =>
      _conversationId (session w0) = _conversationId (session w) /\
      _uploadId (session w0) = _uploadId (session w))); cbn; auto.
  - apply (keeps_acceptChanges P (fun w0 =>
      _conversationId (session w0) = _conversationId (session w) /\
      _uploadId (session w0) = _uploadId (session w))); cbn; auto.
  - apply (keeps_decreaseRetries (fun w0 =>
      _conversationId (session w0) = _conversationId (session w) /\
      _uploadId (session w0) = _uploadId (session w))); cbn; auto.
Qed.

(** X12.  Only [setupConversation] stores identifiers.  Along any sequence
    of calls on a new session in which it is not called, both identifiers
    stay unset: reading [conversationId] throws
    [ConversationIdNotFoundError], and so does [initCodegen], which then
    changes nothing, whatever [send] has done to the state. *)
Theorem identifiers_only_from_setupConversation (cfg : SessionConfig) (tab : string)
    (ops : list Op) :
  no_setup ops = true ->
  let w := run P ops (constructor P cfg tab) in
  _conversationId (session w) = None /\
  _uploadId (session w) = None /\
  conversationId w = (Throw ConversationIdNotFoundError, w) /\
  initCodegen w = (Throw ConversationIdNotFoundError, w).
Proof.
  intros H. cbn zeta.
  assert (G : forall ops w0, no_setup ops = true ->
    _conversationId (session (run P ops w0)) = _conversationId (session w0) /\
    _uploadId (session (run P ops w0)) = _uploadId (session w0)).
  { clear ops H. induction ops as [|op ops IH]; intros w0 H; cbn [run foldl]; [auto|].
    change (foldl _ ?w1 ops) with (run P ops w1).
    cbn in H. apply andb_true_iff in H as [Ho H].
    destruct (IH (perform P op w0).2 H) as [I1 I2].
    pose proof (perform_identifiers op w0) as C.
    destruct op; try discriminate; destruct C as [C1 C2]; rewrite I1, I2; auto. }
  destruct (G ops (constructor P cfg tab) H) as [G1 G2].
  assert (F : falsy (_conversationId (session (run P ops (constructor P cfg tab)))) = true).
  { rewrite G1. reflexivity. }
  split; [exact G1|]. split; [exact G2|].
  generalize dependent (run P ops (constructor P cfg tab)). intros w1 _ _ F. split.
  - rewrite conversationId_eq, F. reflexivity.
  - unfold initCodegen. unfold_all. cbn. unfold_all. cbn. now rewrite F.
Qed.
End Further.

(** ** Properties of the runtime configuration *)

(** X13.  [getRuntimeConfig] fills in a default exactly for the members
    that the configuration leaves undefined.  For each of the nine members
    it reads, a value the configuration gives is the value resolved, a
    [false] for [disableHostPrefix] and an empty [serviceId] included, and
    the default is resolved when the configuration leaves the member
    undefined.  No configuration at all resolves like a configuration with no
    member, to the nine defaults; the API version is fixed whatever the
    configuration says; and resolving a resolved configuration again gives the
    same object. *)
Theorem getRuntimeConfig_defaults
    (Decoder Encoder Logger RegionInfoProvider UrlParser : Type)
    (D : RuntimeConfig.Defaults Decoder Encoder Logger RegionInfoProvider UrlParser)
    (config : option
       (RuntimeConfig.ClientConfig Decoder Encoder Logger RegionInfoProvider UrlParser)) :
  let resolve := RuntimeConfig.getRuntimeConfig _ _ _ _ _ D in
  let got := resolve config in
  (forall c, config = Some c ->
     ((forall x, RuntimeConfig.base64Decoder _ _ _ _ _ c = Some x ->
         RuntimeConfig.r_base64Decoder _ _ _ _ _ got = x) /\
      (RuntimeConfig.base64Decoder _ _ _ _ _ c = None ->
         RuntimeConfig.r_base64Decoder _ _ _ _ _ got =
         RuntimeConfig.fromBase64 _ _ _ _ _ D)) /\
     ((forall x, RuntimeConfig.base64Encoder _ _ _ _ _ c = Some x ->
         RuntimeConfig.r_base64Encoder _ _ _ _ _ got = x) /\
      (RuntimeConfig.base64Encoder _ _ _ _ _ c = None ->
         RuntimeConfig.r_base64Encoder _ _ _ _ _ got =
         RuntimeConfig.toBase64 _ _ _ _ _ D)) /\
     ((forall x, RuntimeConfig.disableHostPrefix _ _ _ _ _ c = Some x ->
         RuntimeConfig.r_disableHostPrefix _ _ _ _ _ got = x) /\
      (RuntimeConfig.disableHostPrefix _ _ _ _ _ c = None ->
         RuntimeConfig.r_disableHostPrefix _ _ _ _ _ got = false)) /\
     ((forall x, RuntimeConfig.logger _ _ _ _ _ c = Some x ->
         RuntimeConfig.r_logger _ _ _ _ _ got = x) /\
      (RuntimeConfig.logger _ _ _ _ _ c = None ->
         RuntimeConfig.r_logger _ _ _ _ _ got = RuntimeConfig.noOpLogger _ _ _ _ _ D)) /\
     ((forall x, RuntimeConfig.regionInfoProvider _ _ _ _ _ c = Some x ->
         RuntimeConfig.r_regionInfoProvider _ _ _ _ _ got = x) /\
      (RuntimeConfig.regionInfoProvider _ _ _ _ _ c = None ->
         RuntimeConfig.r_regionInfoProvider _ _ _ _ _ got =
         RuntimeConfig.defaultRegionInfoProvider _ _ _ _ _ D)) /\
     ((forall x, RuntimeConfig.serviceId _ _ _ _ _ c = Some x ->
         RuntimeConfig.r_serviceId _ _ _ _ _ got = x) /\
      (RuntimeConfig.serviceId _ _ _ _ _ c = None ->
         RuntimeConfig.r_serviceId _ _ _ _ _ got = "CodeWhispererStreaming")) /\
     ((forall x, RuntimeConfig.urlParser _ _ _ _ _ c = Some x ->
         RuntimeConfig.r_urlParser _ _ _ _ _ got = x) /\
      (RuntimeConfig.urlParser _ _ _ _ _ c = None ->
         RuntimeConfig.r_urlParser _ _ _ _ _ got = RuntimeConfig.parseUrl _ _ _ _ _ D)) /\
     ((forall x, RuntimeConfig.utf8Decoder _ _ _ _ _ c = Some x ->
         RuntimeConfig.r_utf8Decoder _ _ _ _ _ got = x) /\
      (RuntimeConfig.utf8Decoder _ _ _ _ _ c = None ->
         RuntimeConfig.r_utf8Decoder _ _ _ _ _ got = RuntimeConfig.fromUtf8 _ _ _ _ _ D)) /\
     ((forall x, RuntimeConfig.utf8Encoder _ _ _ _ _ c = Some x ->
         RuntimeConfig.r_utf8Encoder _ _ _ _ _ got = x) /\
      (RuntimeConfig.utf8Encoder _ _ _ _ _ c = None ->
         RuntimeConfig.r_utf8Encoder _ _ _ _ _ got = RuntimeConfig.toUtf8 _ _ _ _ _ D))) /\
  resolve None = resolve (Some (RuntimeConfig.no_member _ _ _ _ _)) /\
  resolve None =
    RuntimeConfig.mkResolved _ _ _ _ _ "2023-11-27"
      (RuntimeConfig.fromBase64 _ _ _ _ _ D) (RuntimeConfig.toBase64 _ _ _ _ _ D) false
      (RuntimeConfig.noOpLogger _ _ _ _ _ D)
      (RuntimeConfig.defaultRegionInfoProvider _ _ _ _ _ D) "CodeWhispererStreaming"
      (RuntimeConfig.parseUrl _ _ _ _ _ D) (RuntimeConfig.fromUtf8 _ _ _ _ _ D)
      (RuntimeConfig.toUtf8 _ _ _ _ _ D) /\
  RuntimeConfig.apiVersion _ _ _ _ _ got = "2023-11-27" /\
  (forall c id, config = Some c -> RuntimeConfig.serviceId _ _ _ _ _ c = Some id ->
     RuntimeConfig.r_serviceId _ _ _ _ _ got = id) /\
  (forall c b, config = Some c -> RuntimeConfig.disableHostPrefix _ _ _ _ _ c = Some b ->
     RuntimeConfig.r_disableHostPrefix _ _ _ _ _ got = b) /\
  resolve (Some (RuntimeConfig.as_config _ _ _ _ _ got)) = got.
Proof.
  cbn zeta. split; [|repeat split].
  - intros c ->. cbn.
    repeat split; try (intros x E; rewrite E; reflexivity);
      intros E; rewrite E; reflexivity.
  - intros c id -> E. cbn. now rewrite E.
  - intros c b -> E. cbn. now rewrite E.
Qed.

(** ** The further properties on concrete sessions *)

(** A set-up whose upload fails: both identifiers are stored, the state is
    still the not-started one. *)
Lemma setupConversation_failure_witness :
  let w' := (setupConversation Sample.backend_upload_fails Sample.fresh_world).2 in
  (setupConversation Sample.backend_upload_fails Sample.fresh_world).1 =
    Throw (CollaboratorError "uploadCode") /\
  _state (session w') = Some 0%nat /\
  _conversationId (session w') = Some "c1" /\
  _uploadId (session w') = Some "u1".
Proof.
  split; [reflexivity|].
  destruct (setupConversation_failure Sample.backend_upload_fails Sample.fresh_world
              (CollaboratorError "uploadCode") eq_refl)
    as (S & _ & _ & _ & _ & _ & _ & C & U).
  split; [exact S|]. split; [exact (C "c1" eq_refl)|].
  exact (U "c1" "/ws/src" [x50; x4b] "checksum" "https://upload" "u1"
           eq_refl eq_refl eq_refl eq_refl).
Defined.

(** A backend that gives empty identifiers: the archive is uploaded, then
    the set-up throws. *)
Lemma setupConversation_checks_identifiers_last_witness :
  (setupConversation Sample.backend_empty_ids Sample.fresh_world).1 =
    Throw ConversationIdNotFoundError /\
  trace (setupConversation Sample.backend_empty_ids Sample.fresh_world).2 =
    [CreateConversation; GetSourceCodePath "/ws" "src"; PrepareRepoData "/ws/src";
     CreateUploadUrl (Some EmptyString) "checksum"; UploadCode "https://upload" [x50; x4b]].
Proof.
  destruct (setupConversation_checks_identifiers_last Sample.backend_empty_ids
              Sample.fresh_world EmptyString "/ws/src" [x50; x4b] "checksum"
              "https://upload" EmptyString eq_refl eq_refl eq_refl eq_refl eq_refl)
    as [E _].
  rewrite (E eq_refl). split; reflexivity.
Defined.

(** Five decrements in the refinement state, from a limit of three. *)
Lemma decreaseRetries_repeated_witness :
  let w' := run Sample.platform (replicate 5 DecreaseRetries) Sample.refining in
  _state (session Sample.refining) = Some 1%nat /\
  approachRetries (session w') = -2 /\
  codeGenRetries (session w') = 3 /\
  retries w' = (Ok (-2), w').
Proof.
  split; [reflexivity|].
  destruct (decreaseRetries_repeated Sample.platform Sample.refining 1%nat 5 eq_refl)
    as (A & _ & _).
  exact (A eq_refl).
Defined.

(** A [send] whose [collectFiles] throws: the message is the task all the
    same. *)
Lemma send_failure_witness :
  let w' := (send Faulty.backend_no_files "do it" Sample.refining).2 in
  (send Faulty.backend_no_files "do it" Sample.refining).1 =
    Throw (CollaboratorError "collectFiles") /\
  task (session w') = "do it" /\
  trace w' = trace Sample.refining ++ [CollectFiles "/ws"].
Proof.
  destruct (send_failure Faulty.backend_no_files "do it" Sample.refining 1%nat eq_refl)
    as (F & _ & _ & _).
  rewrite (F (CollaboratorError "collectFiles") eq_refl). repeat split.
Defined.

(** A [send] whose [interact] returns the refinement state itself. *)
Lemma send_successor_is_current_witness :
  let w' := (send Faulty.backend_self "do it" Sample.refining).2 in
  _state (session w') = Some 1%nat /\
  SessionState.tokenCancelled (heap w' !!! 1%nat) = true /\
  approach (session w') = "second plan".
Proof.
  destruct (send_successor_is_current Faulty.backend_self "do it" Sample.refining
              1%nat [] (mkResp (Some 1%nat) ["again"])
              (interact Faulty.backend_self 1%nat (mkAction [] "do it" (Some "do it"))
                 (heap Sample.refining)).2
              eq_refl eq_refl eq_refl eq_refl)
    as (S & _ & C & _ & A).
  split; [exact S|]. split; [exact C | exact A].
Defined.

(** The second of two generated files cannot be read: the first is written,
    the second is not. *)
Lemma acceptChanges_stops_at_first_failure_witness :
  (acceptChanges Sample.platform Faulty.backend_unreadable Sample.generating).1 =
    Throw (CollaboratorError "readFile") /\
  trace (acceptChanges Sample.platform Faulty.backend_unreadable Sample.generating).2 =
    trace Sample.generating ++
    [ReadFile (mkUri "weaverbird" "src/a.ts"); Mkdir "/ws/src"; WriteFile "/ws/src/a.ts" "hi";
     ReadFile (mkUri "weaverbird" "/tmp/b.ts")].
Proof.
  destruct (acceptChanges_stops_at_first_failure Sample.platform
              Faulty.backend_unreadable Sample.generating 7%nat (fun _ => [x68; x69])
              ["src/a.ts"] "/tmp/b.ts" [] (CollaboratorError "readFile")
              eq_refl eq_refl) as (R & _).
  - intros q Hq. apply list_elem_of_singleton in Hq as ->. repeat split.
  - rewrite (R eq_refl). split; reflexivity.
Defined.

(** An [interact] that rewrites the approach of the refinement state and
    returns no successor, then [initCodegen]: the new state has the approach
    of the session, which is still empty. *)
Lemma initCodegen_takes_session_approach_witness :
  let w1 := (send Faulty.backend_editing "do it" Sample.refining).2 in
  let w2 := (initCodegen w1).2 in
  SessionState.approach (heap w1 !!! 1%nat) = "edited plan" /\
  exists r2, _state (session w2) = Some r2 /\
             SessionState.cls (heap w2 !!! r2) = CodeGenState /\
             SessionState.approach (heap w2 !!! r2) = EmptyString.
Proof.
  split; [reflexivity|].
  exact (initCodegen_takes_session_approach Faulty.backend_editing "do it"
           Sample.refining 1%nat [] (mkResp None ["noted"])
           (interact Faulty.backend_editing 1%nat (mkAction [] "do it" (Some "do it"))
              (heap Sample.refining)).2
           "c1" "u1" eq_refl eq_refl eq_refl eq_refl ltac:(discriminate) eq_refl
           ltac:(discriminate)).
Defined.

(** A sequence without set-up, in which [send] still moves the state. *)
Lemma identifiers_only_from_setupConversation_witness :
  let ops := [InitCodegen; Send "do it" Sample.backend_moving; DecreaseRetries] in
  let w := run Sample.platform ops Sample.fresh_world in
  no_setup ops = true /\
  current_class w = Some CodeGenState /\
  initCodegen w = (Throw ConversationIdNotFoundError, w).
Proof.
  split; [reflexivity|]. split; [reflexivity|].
  exact (proj2 (proj2 (proj2
    (identifiers_only_from_setupConversation Sample.platform Sample.config "tab"
       [InitCodegen; Send "do it" Sample.backend_moving; DecreaseRetries] eq_refl)))).
Defined.
